(** * Smart Climate: a shallow embedding of [custom_components/smart_climate/climate.py]

    The controller drives a primary and an optional secondary climate device
    from one target temperature.  The embedding follows the Python class
    [SmartClimate]:

    - the attributes fixed by [__init__] form the record [Config];
    - the attributes the methods assign to form the record [Entity];
    - Home Assistant ([hass]) is a snapshot [Hass]: the state machine's
      answers to [hass.states.get], the clock [now()] and, for every service
      call, whether [hass.services.async_call] returns or raises;
    - a method is a computation in the monad [M]: it threads a [World]
      (the entity, the service calls attempted so far, the lines sent to
      [_LOGGER.error]) and either returns or raises.

    Temperatures are Python floats in the source; here they are rationals
    ([Q]), compared with [Qle_bool] and [Qeq_bool], and [+], [-] and [/]
    are exact where the source rounds (infinities and NaN are outside the
    model).  What is proved about the decision is therefore stated on the
    comparisons the code evaluates, [current < target - threshold],
    [current > target + threshold] and [diff > threshold], and uses the
    order of the numbers but no law of arithmetic: it reads the same with
    the sums and differences the source computes.  Times are integers
    (seconds).

    Modelled: [__init__], [async_set_temperature], [async_set_preset_mode],
    [_apply_temperature], the three [_set_effective_*] methods,
    [_periodic_update], [async_update], [preset_modes],
    [extra_state_attributes], [async_added_to_hass] and
    [async_will_remove_from_hass].  Left out: platform setup, the
    properties that only read an attribute, [name] and
    [_evaluate_mode_sync] (never called). *)

From Stdlib Require Import QArith Qabs Lqa ZArith.
From stdpp Require Import base strings gmap list.

Open Scope Q_scope.

(** ** Data *)

(** [HVACMode]: the three members the controller ever commands.  The
    entity's own [_attr_hvac_mode] is the constant [HVACMode.AUTO] and is
    not modelled. *)
Inductive HVACMode : Set := OFF | HEAT | COOL.

#[global] Instance HVACMode_eq_dec : EqDecision HVACMode.
Proof. solve_decision. Defined.

(** The [state] string of a Home Assistant state object, as the code
    distinguishes it: the two reserved words, a string that [float()]
    parses, and any other string (on which [float()] raises). *)
Inductive state_str : Type :=
| unknown
| unavailable
| float_literal (q : Q)
| other_text.

(** [hass.services.async_call("climate", service, service_data)]. *)
Inductive service_call : Type :=
| set_hvac_mode (entity_id : string) (hvac_mode : HVACMode)
| set_temperature (entity_id : string) (temperature : Q).

Definition entity_id_of (c : service_call) : string :=
  match c with
  | set_hvac_mode e _ => e
  | set_temperature e _ => e
  end.

(** The calls of [_LOGGER.error]. *)
Inductive error_log : Type :=
| PresetNotRecognized (preset_mode : string)
| SensorNotFound (sensor : string)
| ErrorReadingSensor (sensor : string)
| OutdoorSensorNotFound (sensor : string)
| ErrorReadingOutdoorSensor (sensor : string).

Inductive exn : Type :=
| ServiceCallError (c : service_call).

Record Hass : Type := {
  states : string -> option state_str;
  now : Z;
  async_call_ok : service_call -> bool
}.

Record Config : Type := {
  _main_climate : string;
  _secondary_climate : option string;
  _sensor : string;
  _outdoor_sensor : option string;
  _primary_threshold : Q;
  _secondary_threshold : Q;
  _heating_presets : gmap string (option Q);
  _cooling_presets : gmap string (option Q);
  _outdoor_hot_threshold : Q;
  _outdoor_cold_threshold : Q;
  _min_runtime : Z;
  _primary_offset : Q;
  _secondary_offset : Q
}.

Record Entity : Type := {
  _last_switch_time : Z;
  _last_main_mode : HVACMode;
  _last_main_temp : option Q;
  _last_secondary_mode : HVACMode;
  _last_secondary_temp : option Q;
  _attr_target_temperature : option Q;
  _attr_current_temperature : option Q;
  _attr_preset_mode : string
}.

Record World : Type := {
  self : Entity;
  calls : list service_call;
  errors : list error_log
}.

(** ** Defaults of the module *)

Definition DEFAULT_TEMP_THRESHOLD_PRIMARY : Q := 1.
Definition DEFAULT_TEMP_THRESHOLD_SECONDARY : Q := 2.

Definition DEFAULT_HEATING_PRESETS : gmap string (option Q) :=
  <["none" := None]> (<["eco" := Some 15]> (<["away" := Some 15]>
  (<["sleep" := Some 15]> (<["comfort" := Some 20]> (<["boost" := Some 24]>
  (<["home" := Some 18]> (<["activity" := Some 18]> ∅))))))).

Definition DEFAULT_COOLING_PRESETS : gmap string (option Q) :=
  <["none" := None]> (<["eco" := None]> (<["away" := None]>
  (<["sleep" := Some 30]> (<["comfort" := Some 24]> (<["boost" := Some 22]>
  (<["home" := Some 26]> (<["activity" := Some 26]> ∅))))))).

Definition DEFAULT_OUTDOOR_HOT_THRESHOLD : Q := 24.
Definition DEFAULT_OUTDOOR_COLD_THRESHOLD : Q := 20.
Definition DEFAULT_MIN_RUNTIME : Z := 300.
Definition DEFAULT_PRIMARY_OFFSET : Q := 1.
Definition DEFAULT_SECONDARY_OFFSET : Q := 0.

(** ** Comparisons *)

(** [x < y] on floats. *)
Definition Qlt_bool (x y : Q) : bool := negb (Qle_bool y x).

(** [a != b] where each side is a float or [None]. *)
Definition temp_ne (a b : option Q) : bool :=
  match a, b with
  | None, None => false
  | Some x, Some y => negb (Qeq_bool x y)
  | _, _ => true
  end.

Arguments temp_ne : simpl never.

(** Truth value of an optional entity id: [None] and the empty string are
    false. *)
Definition truthy (s : option string) : option string :=
  match s with
  | Some EmptyString => None
  | _ => s
  end.

(** ** The monad of the methods *)

Inductive result (A : Type) : Type :=
| Returned (a : A)
| Raised (e : exn).
Arguments Returned {A} a.
Arguments Raised {A} e.

Definition M (A : Type) : Type := World -> result A * World.

Definition ret {A} (a : A) : M A := fun w => (Returned a, w).

Definition bind {A B} (m : M A) (k : A -> M B) : M B :=
  fun w =>
    match m w with
    | (Returned a, w') => k a w'
    | (Raised e, w') => (Raised e, w')
    end.

Notation "x <- m ;; k" := (bind m (fun x => k))
  (at level 100, m at next level, right associativity).
Notation "m ;; k" := (bind m (fun _ => k))
  (at level 100, right associativity).

Definition get_self : M Entity := fun w => (Returned (self w), w).

Definition log_error (e : error_log) : M unit :=
  fun w => (Returned tt,
            {| self := self w; calls := calls w; errors := errors w ++ [e] |}).

Definition log_errors (es : list error_log) : M unit :=
  fun w => (Returned tt,
            {| self := self w; calls := calls w; errors := errors w ++ es |}).

(** [await self.hass.services.async_call("climate", ...)]: the call is
    attempted (and recorded); it returns, or raises into the caller.  The
    source does not pass [blocking=True]: a failure inside the service
    handler does not surface, and is a call that returns. *)
Definition async_call (hass : Hass) (c : service_call) : M unit :=
  fun w =>
    let w' := {| self := self w; calls := calls w ++ [c]; errors := errors w |} in
    if async_call_ok hass c then (Returned tt, w') else (Raised (ServiceCallError c), w').

(** Attribute assignments. *)
Definition with_last_switch_time (t : Z) (s : Entity) : Entity :=
  {| _last_switch_time := t;
     _last_main_mode := _last_main_mode s;
     _last_main_temp := _last_main_temp s;
     _last_secondary_mode := _last_secondary_mode s;
     _last_secondary_temp := _last_secondary_temp s;
     _attr_target_temperature := _attr_target_temperature s;
     _attr_current_temperature := _attr_current_temperature s;
     _attr_preset_mode := _attr_preset_mode s |}.

Definition with_last_main_mode (m : HVACMode) (s : Entity) : Entity :=
  {| _last_switch_time := _last_switch_time s;
     _last_main_mode := m;
     _last_main_temp := _last_main_temp s;
     _last_secondary_mode := _last_secondary_mode s;
     _last_secondary_temp := _last_secondary_temp s;
     _attr_target_temperature := _attr_target_temperature s;
     _attr_current_temperature := _attr_current_temperature s;
     _attr_preset_mode := _attr_preset_mode s |}.

Definition with_last_main_temp (t : option Q) (s : Entity) : Entity :=
  {| _last_switch_time := _last_switch_time s;
     _last_main_mode := _last_main_mode s;
     _last_main_temp := t;
     _last_secondary_mode := _last_secondary_mode s;
     _last_secondary_temp := _last_secondary_temp s;
     _attr_target_temperature := _attr_target_temperature s;
     _attr_current_temperature := _attr_current_temperature s;
     _attr_preset_mode := _attr_preset_mode s |}.

Definition with_last_secondary_mode (m : HVACMode) (s : Entity) : Entity :=
  {| _last_switch_time := _last_switch_time s;
     _last_main_mode := _last_main_mode s;
     _last_main_temp := _last_main_temp s;
     _last_secondary_mode := m;
     _last_secondary_temp := _last_secondary_temp s;
     _attr_target_temperature := _attr_target_temperature s;
     _attr_current_temperature := _attr_current_temperature s;
     _attr_preset_mode := _attr_preset_mode s |}.

Definition with_last_secondary_temp (t : option Q) (s : Entity) : Entity :=
  {| _last_switch_time := _last_switch_time s;
     _last_main_mode := _last_main_mode s;
     _last_main_temp := _last_main_temp s;
     _last_secondary_mode := _last_secondary_mode s;
     _last_secondary_temp := t;
     _attr_target_temperature := _attr_target_temperature s;
     _attr_current_temperature := _attr_current_temperature s;
     _attr_preset_mode := _attr_preset_mode s |}.

Definition with_target_temperature (t : option Q) (s : Entity) : Entity :=
  {| _last_switch_time := _last_switch_time s;
     _last_main_mode := _last_main_mode s;
     _last_main_temp := _last_main_temp s;
     _last_secondary_mode := _last_secondary_mode s;
     _last_secondary_temp := _last_secondary_temp s;
     _attr_target_temperature := t;
     _attr_current_temperature := _attr_current_temperature s;
     _attr_preset_mode := _attr_preset_mode s |}.

Definition with_current_temperature (t : option Q) (s : Entity) : Entity :=
  {| _last_switch_time := _last_switch_time s;
     _last_main_mode := _last_main_mode s;
     _last_main_temp := _last_main_temp s;
     _last_secondary_mode := _last_secondary_mode s;
     _last_secondary_temp := _last_secondary_temp s;
     _attr_target_temperature := _attr_target_temperature s;
     _attr_current_temperature := t;
     _attr_preset_mode := _attr_preset_mode s |}.

Definition with_preset_mode (p : string) (s : Entity) : Entity :=
  {| _last_switch_time := _last_switch_time s;
     _last_main_mode := _last_main_mode s;
     _last_main_temp := _last_main_temp s;
     _last_secondary_mode := _last_secondary_mode s;
     _last_secondary_temp := _last_secondary_temp s;
     _attr_target_temperature := _attr_target_temperature s;
     _attr_current_temperature := _attr_current_temperature s;
     _attr_preset_mode := p |}.

(** [self.<attribute> = v] *)
Definition assign (f : Entity -> Entity) : M unit :=
  fun w => (Returned tt,
            {| self := f (self w); calls := calls w; errors := errors w |}).

(** ** The methods of [SmartClimate] *)

(** [__init__]: the mutable attributes at construction. *)
Definition __init__ (cfg : Config) (hass : Hass) : Entity :=
  {| _last_switch_time := (now hass - _min_runtime cfg)%Z;
     _last_main_mode := OFF;
     _last_main_temp := None;
     _last_secondary_mode := OFF;
     _last_secondary_temp := None;
     _attr_target_temperature := None;
     _attr_current_temperature := None;
     _attr_preset_mode := "eco" |}.

Definition _set_effective_main_temperature
    (cfg : Config) (hass : Hass) (temperature : Q) : M unit :=
  async_call hass (set_temperature (_main_climate cfg) temperature).

Definition _set_effective_main_hvac_mode
    (cfg : Config) (hass : Hass) (hvac_mode : HVACMode) : M unit :=
  async_call hass (set_hvac_mode (_main_climate cfg) hvac_mode).

Definition _set_effective_secondary
    (cfg : Config) (hass : Hass) (hvac_mode : HVACMode) (temperature : option Q)
    : M unit :=
  match _secondary_climate cfg with
  | None => ret tt
  | Some dev =>
      (match temperature with
       | Some t =>
           if decide (hvac_mode <> OFF)
           then async_call hass (set_temperature dev t)
           else ret tt
       | None => ret tt
       end) ;;
      async_call hass (set_hvac_mode dev hvac_mode)
  end.

(** Lines 323-332 of [_apply_temperature]: the local [outdoor_temp] and the
    errors logged while it is read. *)
Definition read_outdoor (hass : Hass) (sensor : string)
    : option Q * list error_log :=
  match states hass sensor with
  | Some (float_literal q) => (Some q, [])
  | Some other_text => (None, [ErrorReadingOutdoorSensor sensor])
  | Some unknown | Some unavailable | None =>
      (None, [OutdoorSensorNotFound sensor])
  end.

(** Lines 334-343: the mode chosen once the room is too warm. *)
Definition cooling_mode (cfg : Config) (hass : Hass)
    : HVACMode * list error_log :=
  match truthy (_outdoor_sensor cfg) with
  | Some sensor =>
      let '(outdoor_temp, errs) := read_outdoor hass sensor in
      match outdoor_temp with
      | Some t =>
          if Qle_bool (_outdoor_hot_threshold cfg) t then (COOL, errs) else (OFF, errs)
      | None => (OFF, errs)
      end
  | None => (COOL, [])
  end.

(** Lines 317-346: the locals [effective_mode] and [diff], with the errors
    logged on the way. *)
Definition decide_mode (cfg : Config) (hass : Hass) (current target : Q)
    : HVACMode * Q * list error_log :=
  if Qlt_bool current (target - _primary_threshold cfg) then
    (HEAT, target - current, [])
  else if Qlt_bool (target + _primary_threshold cfg) current then
    let '(mode, errs) := cooling_mode cfg hass in
    (mode, current - target, errs)
  else (OFF, 0, []).

Definition effective_mode (cfg : Config) (hass : Hass) (current target : Q)
    : HVACMode :=
  fst (fst (decide_mode cfg hass current target)).

Definition diff (cfg : Config) (hass : Hass) (current target : Q) : Q :=
  snd (fst (decide_mode cfg hass current target)).

(** Line 362. *)
Definition main_target (cfg : Config) (target : Q) : Q :=
  target + _primary_offset cfg.

(** Line 371. *)
Definition secondary_effective_mode
    (cfg : Config) (effective_mode : HVACMode) (diff : Q) : HVACMode :=
  if Qlt_bool (_secondary_threshold cfg) diff then effective_mode else OFF.

(** Line 373. *)
Definition secondary_temp
    (cfg : Config) (secondary_effective_mode : HVACMode) (target : Q) : option Q :=
  if decide (secondary_effective_mode <> OFF)
  then Some (target + _secondary_offset cfg)
  else None.

(** Lines 304-312: no target temperature. *)
Definition turn_off_devices (cfg : Config) (hass : Hass) : M unit :=
  s <- get_self ;;
  (if decide (_last_main_mode s <> OFF) then
     _set_effective_main_hvac_mode cfg hass OFF ;;
     assign (with_last_main_mode OFF)
   else ret tt) ;;
  s <- get_self ;;
  match _secondary_climate cfg with
  | Some _ =>
      if decide (_last_secondary_mode s <> OFF) then
        _set_effective_secondary cfg hass OFF None ;;
        assign (with_last_secondary_mode OFF)
      else ret tt
  | None => ret tt
  end.

(** Lines 353-379: send what differs from the last commands. *)
Definition commit_main (cfg : Config) (hass : Hass)
    (effective_mode : HVACMode) (target : Q) : M unit :=
  s <- get_self ;;
  (if decide (effective_mode <> _last_main_mode s) then
     _set_effective_main_hvac_mode cfg hass effective_mode ;;
     assign (with_last_main_mode effective_mode)
   else ret tt) ;;
  if decide (effective_mode <> OFF) then
    let main_target := main_target cfg target in
    s <- get_self ;;
    if temp_ne (_last_main_temp s) (Some main_target) then
      _set_effective_main_temperature cfg hass main_target ;;
      assign (with_last_main_temp (Some main_target))
    else ret tt
  else ret tt.

Definition commit_secondary (cfg : Config) (hass : Hass)
    (effective_mode : HVACMode) (diff target : Q) : M unit :=
  match _secondary_climate cfg with
  | Some _ =>
      let secondary_effective_mode := secondary_effective_mode cfg effective_mode diff in
      let secondary_temp := secondary_temp cfg secondary_effective_mode target in
      s <- get_self ;;
      if negb (bool_decide (secondary_effective_mode = _last_secondary_mode s))
         || temp_ne secondary_temp (_last_secondary_temp s)
      then
        _set_effective_secondary cfg hass secondary_effective_mode secondary_temp ;;
        assign (with_last_secondary_mode secondary_effective_mode) ;;
        assign (with_last_secondary_temp secondary_temp)
      else ret tt
  | None => ret tt
  end.

Definition _apply_temperature (cfg : Config) (hass : Hass) : M unit :=
  match states hass (_sensor cfg) with
  | None | Some unknown | Some unavailable =>
      log_error (SensorNotFound (_sensor cfg))
  | Some other_text =>
      log_error (ErrorReadingSensor (_sensor cfg))
  | Some (float_literal current) =>
      assign (with_current_temperature (Some current)) ;;
      s <- get_self ;;
      match _attr_target_temperature s with
      | None => turn_off_devices cfg hass
      | Some target =>
          let now_time := now hass in
          let '(effective_mode, diff, errs) := decide_mode cfg hass current target in
          log_errors errs ;;
          commit_main cfg hass effective_mode target ;;
          commit_secondary cfg hass effective_mode diff target ;;
          if decide (effective_mode <> OFF)
          then assign (with_last_switch_time now_time)
          else ret tt
      end
  end.

(** [async_set_temperature(temperature=...)]; [async_write_ha_state] only
    publishes the attributes and changes nothing here. *)
Definition async_set_temperature (cfg : Config) (hass : Hass)
    (temperature : option Q) : M unit :=
  match temperature with
  | None => ret tt
  | Some t =>
      assign (with_target_temperature (Some t)) ;;
      _apply_temperature cfg hass
  end.

(** Lines 262-268 of [async_set_preset_mode]: the local [current_temp]. *)
Definition read_current_temp (cfg : Config) (hass : Hass)
    : option Q * list error_log :=
  match states hass (_sensor cfg) with
  | Some (float_literal q) => (Some q, [])
  | Some other_text => (None, [ErrorReadingSensor (_sensor cfg)])
  | Some unknown | Some unavailable | None => (None, [])
  end.

(** Lines 270-286: the value assigned to the target temperature, if any
    ([None]: no branch assigns). *)
Definition preset_target (cfg : Config) (preset_mode : string)
    (current_temp : option Q) : option (option Q) :=
  match current_temp, _heating_presets cfg !! preset_mode,
        _cooling_presets cfg !! preset_mode with
  | Some current, Some heating_target, Some cooling_target =>
      match heating_target, cooling_target with
      | None, _ => Some cooling_target
      | Some _, None => Some heating_target
      | Some h, Some c =>
          let midpoint := (h + c) / 2 in
          if Qlt_bool current midpoint then Some heating_target
          else Some cooling_target
      end
  | _, Some heating_target, _ => Some heating_target
  | _, None, Some cooling_target => Some cooling_target
  | _, None, None => None
  end.

Definition async_set_preset_mode (cfg : Config) (hass : Hass)
    (preset_mode : string) : M unit :=
  match _heating_presets cfg !! preset_mode, _cooling_presets cfg !! preset_mode with
  | None, None => log_error (PresetNotRecognized preset_mode)
  | _, _ =>
      assign (with_preset_mode preset_mode) ;;
      let '(current_temp, errs) := read_current_temp cfg hass in
      log_errors errs ;;
      (match preset_target cfg preset_mode current_temp with
       | Some t => assign (with_target_temperature t)
       | None => ret tt
       end) ;;
      _apply_temperature cfg hass
  end.

Definition _periodic_update (cfg : Config) (hass : Hass) : M unit :=
  _apply_temperature cfg hass.

(** ** Input sequences *)

(** What reaches the controller: a timer tick, a manual setpoint, a preset
    selection; each with the snapshot of Home Assistant it runs against. *)
Inductive event : Type :=
| Tick
| SetTemperature (temperature : option Q)
| SetPreset (preset_mode : string).

Definition handle (cfg : Config) (hass : Hass) (ev : event) : M unit :=
  match ev with
  | Tick => _periodic_update cfg hass
  | SetTemperature t => async_set_temperature cfg hass t
  | SetPreset p => async_set_preset_mode cfg hass p
  end.

(** An exception leaves the method and reaches the host, which goes on
    delivering events to the entity as the method left it. *)
Fixpoint run (cfg : Config) (inputs : list (Hass * event)) (w : World) : World :=
  match inputs with
  | [] => w
  | (hass, ev) :: rest => run cfg rest (snd (handle cfg hass ev w))
  end.

Definition start (cfg : Config) (hass : Hass) : World :=
  {| self := __init__ cfg hass; calls := []; errors := [] |}.

(** ** Notions used in the statements *)

(** Cooling is vetoed: an outdoor sensor is configured and its reading is
    missing or below the hot threshold. *)
Definition cooling_vetoed (cfg : Config) (hass : Hass) : Prop :=
  exists sensor,
    truthy (_outdoor_sensor cfg) = Some sensor /\
    forall t, states hass sensor = Some (float_literal t) ->
              t < _outdoor_hot_threshold cfg.

(** The indoor sensor gives no usable reading: the state object is
    missing, or its state is not a number. *)
Definition sensor_unreadable (cfg : Config) (hass : Hass) : Prop :=
  forall q, states hass (_sensor cfg) <> Some (float_literal q).

(** Every service call of the snapshot goes through. *)
Definition calls_succeed (hass : Hass) : Prop :=
  forall c, async_call_ok hass c = true.

(** The service calls a method attempts when started in [w]. *)
Definition issued {A} (m : M A) (w : World) : list service_call :=
  drop (length (calls w)) (calls (snd (m w))).


Definition computed_secondary (cfg : Config) (hass : Hass) (current : Q)
    (target : option Q) : HVACMode :=
  match target with
  | Some t =>
      secondary_effective_mode cfg (effective_mode cfg hass current t)
        (diff cfg hass current t)
  | None => OFF
  end.


(** The world with other values in the two secondary bookkeeping fields. *)
Definition with_secondary_fields (m : HVACMode) (t : option Q) (w : World) : World :=
  {| self := with_last_secondary_mode m (with_last_secondary_temp t (self w));
     calls := calls w;
     errors := errors w |}.

(** The world with the last switch time forgotten. *)
Definition without_switch_time (w : World) : World :=
  {| self := with_last_switch_time 0 (self w);
     calls := calls w;
     errors := errors w |}.

(** The world with another last switch time. *)
Definition with_switch_time (t : Z) (w : World) : World :=
  {| self := with_last_switch_time t (self w);
     calls := calls w;
     errors := errors w |}.

(** Timer ticks, one per snapshot. *)
Definition ticks (snapshots : list Hass) : list (Hass * event) :=
  map (fun hass => (hass, Tick)) snapshots.

(** Nothing is left to switch off: no target, and the last mode commanded
    to each configured device is OFF. *)
Definition settled_off (cfg : Config) (w : World) : Prop :=
  _attr_target_temperature (self w) = None /\
  _last_main_mode (self w) = OFF /\
  (is_Some (_secondary_climate cfg) -> _last_secondary_mode (self w) = OFF).

(** The OFF commands owed to the devices not yet commanded OFF. *)
Definition off_commands (cfg : Config) (s : Entity) : list service_call :=
  (if decide (_last_main_mode s <> OFF)
   then [set_hvac_mode (_main_climate cfg) OFF] else []) ++
  match _secondary_climate cfg with
  | Some dev =>
      if decide (_last_secondary_mode s <> OFF)
      then [set_hvac_mode dev OFF] else []
  | None => []
  end.




(** The bookkeeping of the device a call is addressed to is where it was:
    for a mode command the last mode (and, for the secondary device, the
    last setpoint recorded with it), for a setpoint command the last
    setpoint. *)
Definition not_advanced (cfg : Config) (s s' : Entity) (c : service_call) : Prop :=
  match c with
  | set_hvac_mode e _ =>
      (e = _main_climate cfg /\ _last_main_mode s' = _last_main_mode s) \/
      (_secondary_climate cfg = Some e /\
       _last_secondary_mode s' = _last_secondary_mode s /\
       _last_secondary_temp s' = _last_secondary_temp s)
  | set_temperature e _ =>
      (e = _main_climate cfg /\ _last_main_temp s' = _last_main_temp s) \/
      (_secondary_climate cfg = Some e /\
       _last_secondary_mode s' = _last_secondary_mode s /\
       _last_secondary_temp s' = _last_secondary_temp s)
  end.

(** The bookkeeping holds a call: its mode, or its setpoint, is the last
    one commanded to the device it is addressed to. *)
Definition advanced (cfg : Config) (s' : Entity) (c : service_call) : Prop :=
  match c with
  | set_hvac_mode e m =>
      (e = _main_climate cfg /\ _last_main_mode s' = m) \/
      (_secondary_climate cfg = Some e /\ _last_secondary_mode s' = m)
  | set_temperature e t =>
      (e = _main_climate cfg /\ _last_main_temp s' = Some t) \/
      (_secondary_climate cfg = Some e /\ _last_secondary_temp s' = Some t)
  end.

(** The errors a cycle logs once the indoor temperature is read: those of
    the outdoor sensor, met while the mode is decided. *)
Definition decision_errors (cfg : Config) (hass : Hass) (current : Q)
    (target : option Q) : list error_log :=
  match target with
  | Some t => snd (decide_mode cfg hass current t)
  | None => []
  end.

(** ** A sample installation

    The platform defaults, a main and an auxiliary device, an indoor and an
    outdoor sensor. *)
Definition sample_config : Config :=
  {| _main_climate := "climate.main";
     _secondary_climate := Some "climate.aux";
     _sensor := "sensor.indoor";
     _outdoor_sensor := Some "sensor.outdoor";
     _primary_threshold := DEFAULT_TEMP_THRESHOLD_PRIMARY;
     _secondary_threshold := DEFAULT_TEMP_THRESHOLD_SECONDARY;
     _heating_presets := DEFAULT_HEATING_PRESETS;
     _cooling_presets := DEFAULT_COOLING_PRESETS;
     _outdoor_hot_threshold := DEFAULT_OUTDOOR_HOT_THRESHOLD;
     _outdoor_cold_threshold := DEFAULT_OUTDOOR_COLD_THRESHOLD;
     _min_runtime := DEFAULT_MIN_RUNTIME;
     _primary_offset := DEFAULT_PRIMARY_OFFSET;
     _secondary_offset := DEFAULT_SECONDARY_OFFSET |}.

Definition with_secondary_climate (d : option string) (cfg : Config) : Config :=
  {| _main_climate := _main_climate cfg;
     _secondary_climate := d;
     _sensor := _sensor cfg;
     _outdoor_sensor := _outdoor_sensor cfg;
     _primary_threshold := _primary_threshold cfg;
     _secondary_threshold := _secondary_threshold cfg;
     _heating_presets := _heating_presets cfg;
     _cooling_presets := _cooling_presets cfg;
     _outdoor_hot_threshold := _outdoor_hot_threshold cfg;
     _outdoor_cold_threshold := _outdoor_cold_threshold cfg;
     _min_runtime := _min_runtime cfg;
     _primary_offset := _primary_offset cfg;
     _secondary_offset := _secondary_offset cfg |}.

Definition with_outdoor_sensor (d : option string) (cfg : Config) : Config :=
  {| _main_climate := _main_climate cfg;
     _secondary_climate := _secondary_climate cfg;
     _sensor := _sensor cfg;
     _outdoor_sensor := d;
     _primary_threshold := _primary_threshold cfg;
     _secondary_threshold := _secondary_threshold cfg;
     _heating_presets := _heating_presets cfg;
     _cooling_presets := _cooling_presets cfg;
     _outdoor_hot_threshold := _outdoor_hot_threshold cfg;
     _outdoor_cold_threshold := _outdoor_cold_threshold cfg;
     _min_runtime := _min_runtime cfg;
     _primary_offset := _primary_offset cfg;
     _secondary_offset := _secondary_offset cfg |}.

Definition with_primary_threshold (t : Q) (cfg : Config) : Config :=
  {| _main_climate := _main_climate cfg;
     _secondary_climate := _secondary_climate cfg;
     _sensor := _sensor cfg;
     _outdoor_sensor := _outdoor_sensor cfg;
     _primary_threshold := t;
     _secondary_threshold := _secondary_threshold cfg;
     _heating_presets := _heating_presets cfg;
     _cooling_presets := _cooling_presets cfg;
     _outdoor_hot_threshold := _outdoor_hot_threshold cfg;
     _outdoor_cold_threshold := _outdoor_cold_threshold cfg;
     _min_runtime := _min_runtime cfg;
     _primary_offset := _primary_offset cfg;
     _secondary_offset := _secondary_offset cfg |}.

Definition with_min_runtime (r : Z) (cfg : Config) : Config :=
  {| _main_climate := _main_climate cfg;
     _secondary_climate := _secondary_climate cfg;
     _sensor := _sensor cfg;
     _outdoor_sensor := _outdoor_sensor cfg;
     _primary_threshold := _primary_threshold cfg;
     _secondary_threshold := _secondary_threshold cfg;
     _heating_presets := _heating_presets cfg;
     _cooling_presets := _cooling_presets cfg;
     _outdoor_hot_threshold := _outdoor_hot_threshold cfg;
     _outdoor_cold_threshold := _outdoor_cold_threshold cfg;
     _min_runtime := r;
     _primary_offset := _primary_offset cfg;
     _secondary_offset := _secondary_offset cfg |}.

(** A snapshot of Home Assistant: the states of the two sensors of
    [sample_config], the clock at [1000], the verdict [ok] on service calls. *)
Definition snapshot (indoor outdoor : option state_str)
    (ok : service_call -> bool) : Hass :=
  {| states := fun entity_id =>
       if String.eqb entity_id "sensor.indoor" then indoor
       else if String.eqb entity_id "sensor.outdoor" then outdoor
       else None;
     now := 1000;
     async_call_ok := ok |}.

Definition all_ok (c : service_call) : bool := true.

(** The transport to the main device is down. *)
Definition main_down (c : service_call) : bool :=
  negb (String.eqb (entity_id_of c) "climate.main").

(** ** The rest of the class *)

(** The errors [async_update] logs (lines 424 and 426). *)
Inductive update_log : Type :=
| ErrorUpdatingSensor (sensor : string)
| SensorUnavailableDuringUpdate (sensor : string).

(** [async_update]: refresh the current temperature from the indoor
    sensor.  It sends nothing and calls no other method, so it is a
    function of the entity; the errors it logs are returned. *)
Definition async_update (cfg : Config) (hass : Hass) (s : Entity)
    : Entity * list update_log :=
  match states hass (_sensor cfg) with
  | Some (float_literal q) => (with_current_temperature (Some q) s, [])
  | Some other_text => (s, [ErrorUpdatingSensor (_sensor cfg)])
  | Some unknown | Some unavailable | None =>
      (s, [SensorUnavailableDuringUpdate (_sensor cfg)])
  end.

(** [preset_modes]: the keys of [{**heating, **cooling}].  The maps are
    finite maps here, so the list is given up to the order of its
    elements. *)
Definition preset_modes (cfg : Config) : list string :=
  elements (dom (_cooling_presets cfg ∪ _heating_presets cfg)).

(** A value of a state attribute, as Home Assistant stores it. *)
Inductive attr_value : Type :=
| attr_none
| attr_number (q : Q)
| attr_text (s : string).

(** [extra_state_attributes]. *)
Definition extra_state_attributes (s : Entity) : gmap string attr_value :=
  <["target_temperature" :=
      match _attr_target_temperature s with
      | Some q => attr_number q
      | None => attr_none
      end]>
  (<["preset_mode" := attr_text (_attr_preset_mode s)]> ∅).

(** Lines 431-435 of [async_added_to_hass]: the entity after the restore.
    [last_state] is the attribute dictionary of the stored state, if any.
    The entity holds a string preset and a numeric or absent target, so a
    stored value of another type has no image here ([None]). *)
Definition restore_state (last_state : option (gmap string attr_value))
    (s : Entity) : option Entity :=
  match last_state with
  | None => Some s
  | Some attributes =>
      match
        match attributes !! "preset_mode" with
        | None => Some "eco"%string
        | Some (attr_text p) => Some p
        | Some _ => None
        end,
        match attributes !! "target_temperature" with
        | None => Some (_attr_target_temperature s)
        | Some attr_none => Some None
        | Some (attr_number q) => Some (Some q)
        | Some (attr_text _) => None
        end
      with
      | Some p, Some t => Some (with_target_temperature t (with_preset_mode p s))
      | _, _ => None
      end
  end.

(** The timers of the host: the live registrations of
    [async_track_time_interval], each with its period in seconds, and the
    next free registration. *)
Record Timers : Type := {
  live : list (nat * Z);
  next_registration : nat
}.

(** [async_track_time_interval(hass, callback, timedelta(seconds=period))]:
    the new registration, which the returned callable cancels. *)
Definition async_track_time_interval (period : Z) (t : Timers) : nat * Timers :=
  (next_registration t,
   {| live := live t ++ [(next_registration t, period)];
      next_registration := S (next_registration t) |}).

(** Calling what [async_track_time_interval] returned. *)
Definition unsubscribe (registration : nat) (t : Timers) : Timers :=
  {| live := filter (fun r => fst r <> registration) (live t);
     next_registration := next_registration t |}.

(** The entity with its attribute [_update_unsub]. *)
Record Installed : Type := {
  entity : Entity;
  _update_unsub : option nat
}.

(** [async_added_to_hass]: restore, then start the periodic updates. *)
Definition async_added_to_hass (last_state : option (gmap string attr_value))
    (i : Installed) (t : Timers) : option (Installed * Timers) :=
  match restore_state last_state (entity i) with
  | Some s =>
      let '(registration, t') := async_track_time_interval 60 t in
      Some ({| entity := s; _update_unsub := Some registration |}, t')
  | None => None
  end.

(** [async_will_remove_from_hass]. *)
Definition async_will_remove_from_hass (i : Installed) (t : Timers)
    : Installed * Timers :=
  match _update_unsub i with
  | Some registration =>
      ({| entity := entity i; _update_unsub := None |}, unsubscribe registration t)
  | None => (i, t)
  end.

(** ** Further notions used in the statements *)

Definition with_outdoor_cold_threshold (t : Q) (cfg : Config) : Config :=
  {| _main_climate := _main_climate cfg;
     _secondary_climate := _secondary_climate cfg;
     _sensor := _sensor cfg;
     _outdoor_sensor := _outdoor_sensor cfg;
     _primary_threshold := _primary_threshold cfg;
     _secondary_threshold := _secondary_threshold cfg;
     _heating_presets := _heating_presets cfg;
     _cooling_presets := _cooling_presets cfg;
     _outdoor_hot_threshold := _outdoor_hot_threshold cfg;
     _outdoor_cold_threshold := t;
     _min_runtime := _min_runtime cfg;
     _primary_offset := _primary_offset cfg;
     _secondary_offset := _secondary_offset cfg |}.

(** Every snapshot of an input sequence lets the service calls through. *)
Definition inputs_succeed (inputs : list (Hass * event)) : Prop :=
  Forall (fun input => calls_succeed (fst input)) inputs.

(** The mode a device is in after a list of calls that went through,
    starting from [m]: that of the last mode command addressed to it. *)
Definition mode_after (device : string) (m : HVACMode)
    (l : list service_call) : HVACMode :=
  fold_left
    (fun m c =>
       match c with
       | set_hvac_mode e m' => if String.eqb e device then m' else m
       | set_temperature _ _ => m
       end) l m.

(** Likewise the setpoint a device holds. *)
Definition setpoint_after (device : string) (t : option Q)
    (l : list service_call) : option Q :=
  fold_left
    (fun t c =>
       match c with
       | set_temperature e t' => if String.eqb e device then Some t' else t
       | set_hvac_mode _ _ => t
       end) l t.

(** The two devices do not work against each other: the secondary device
    is OFF or in the mode of the main device. *)
Definition devices_agree (s : Entity) : Prop :=
  _last_secondary_mode s = OFF \/ _last_secondary_mode s = _last_main_mode s.

(** The bookkeeping mirrors the devices: the last commanded modes, and the
    last setpoint of the main device, are those the calls so far have left
    the devices with (both devices OFF and without setpoint at first). *)
Definition mirrors (cfg : Config) (w : World) : Prop :=
  _last_main_mode (self w) = mode_after (_main_climate cfg) OFF (calls w) /\
  _last_main_temp (self w) = setpoint_after (_main_climate cfg) None (calls w) /\
  forall dev,
    _secondary_climate cfg = Some dev ->
    _last_secondary_mode (self w) = mode_after dev OFF (calls w).

(** * Properties *)

(** ** Comparisons on rationals *)

Lemma Qlt_bool_iff (x y : Q) : Qlt_bool x y = true <-> x < y.
Proof.
  unfold Qlt_bool. rewrite negb_true_iff.
  split; intro H.
  - apply Qnot_le_lt. intro Hle. apply Qle_bool_iff in Hle. congruence.
  - destruct (Qle_bool y x) eqn:E; [| reflexivity].
    apply Qle_bool_iff in E. exfalso. apply (Qlt_not_le _ _ H E).
Qed.

Lemma Qlt_bool_false_iff (x y : Q) : Qlt_bool x y = false <-> y <= x.
Proof.
  unfold Qlt_bool. rewrite negb_false_iff. apply Qle_bool_iff.
Qed.

Lemma Qle_bool_false_iff (x y : Q) : Qle_bool x y = false <-> y < x.
Proof.
  rewrite <- Qlt_bool_iff. unfold Qlt_bool.
  destruct (Qle_bool x y); simpl; split; congruence.
Qed.


Lemma mode_dne (a b : HVACMode) : ~ a <> b -> a = b.
Proof.
  intros H. destruct (decide (a = b)); [assumption | contradiction].
Qed.

Lemma temp_ne_refl (a : option Q) : temp_ne a a = false.
Proof.
  destruct a as [q |]; unfold temp_ne; [| reflexivity].
  rewrite negb_false_iff. apply Qeq_bool_iff. reflexivity.
Qed.

(** Turn the boolean tests of the model into propositions. *)
Ltac reflect_Q :=
  repeat match goal with
  | H : Qlt_bool _ _ = true |- _ => apply Qlt_bool_iff in H
  | H : Qlt_bool _ _ = false |- _ => apply Qlt_bool_false_iff in H
  | H : Qle_bool _ _ = true |- _ => apply Qle_bool_iff in H
  | H : Qle_bool _ _ = false |- _ => apply Qle_bool_false_iff in H
  end.

(** ** The decision *)

Section Decision.

Context (cfg : Config) (hass : Hass).

Lemma cooling_mode_cases :
  (fst (cooling_mode cfg hass) = COOL /\ ~ cooling_vetoed cfg hass) \/
  (fst (cooling_mode cfg hass) = OFF /\ cooling_vetoed cfg hass).
Proof.
  unfold cooling_mode, cooling_vetoed, read_outdoor.
  destruct (truthy (_outdoor_sensor cfg)) as [sensor |] eqn:Hs.
  - destruct (states hass sensor) as [[| | q |] |] eqn:Hst; simpl;
      try (right; split; [reflexivity |];
           exists sensor; split; [reflexivity | intros t Ht; congruence]).
    destruct (Qle_bool (_outdoor_hot_threshold cfg) q) eqn:Hq; simpl; reflect_Q.
    + left. split; [reflexivity |].
      intros (s' & Hs' & Hlt). injection Hs' as <-.
      specialize (Hlt q Hst). lra.
    + right. split; [reflexivity |].
      exists sensor. split; [reflexivity |].
      intros t Ht. rewrite Hst in Ht. injection Ht as <-. assumption.
  - left. split; [reflexivity |]. intros (s' & Hs' & _). discriminate.
Qed.

Lemma effective_mode_heat (current target : Q) :
  current < target - _primary_threshold cfg ->
  effective_mode cfg hass current target = HEAT /\
  diff cfg hass current target = target - current.
Proof.
  intros H. apply Qlt_bool_iff in H.
  unfold effective_mode, diff, decide_mode. rewrite H. split; reflexivity.
Qed.

Lemma effective_mode_cool (current target : Q) :
  ~ current < target - _primary_threshold cfg ->
  target + _primary_threshold cfg < current ->
  effective_mode cfg hass current target = fst (cooling_mode cfg hass) /\
  diff cfg hass current target = current - target.
Proof.
  intros Hn H. apply Qlt_bool_iff in H.
  unfold effective_mode, diff, decide_mode.
  destruct (Qlt_bool current (target - _primary_threshold cfg)) eqn:E.
  - apply Qlt_bool_iff in E. contradiction.
  - rewrite H. destruct (cooling_mode cfg hass); split; reflexivity.
Qed.

Lemma effective_mode_band (current target : Q) :
  target - _primary_threshold cfg <= current ->
  current <= target + _primary_threshold cfg ->
  effective_mode cfg hass current target = OFF /\
  diff cfg hass current target = 0.
Proof.
  intros Hlo Hhi.
  apply Qlt_bool_false_iff in Hlo. apply Qlt_bool_false_iff in Hhi.
  unfold effective_mode, diff, decide_mode. rewrite Hlo, Hhi. split; reflexivity.
Qed.

Lemma secondary_effective_mode_on (m : HVACMode) (d : Q) :
  _secondary_threshold cfg < d -> secondary_effective_mode cfg m d = m.
Proof.
  intros H. apply Qlt_bool_iff in H.
  unfold secondary_effective_mode. rewrite H. reflexivity.
Qed.

Lemma secondary_effective_mode_off (m : HVACMode) (d : Q) :
  d <= _secondary_threshold cfg -> secondary_effective_mode cfg m d = OFF.
Proof.
  intros H. apply Qlt_bool_false_iff in H.
  unfold secondary_effective_mode. rewrite H. reflexivity.
Qed.

End Decision.




(** C2, as stated, fails: with a negative primary threshold the test
    [current < target - threshold] comes first, so a room exactly at target
    (above [target + threshold]) is heated although no outdoor sensor is
    configured. *)
Lemma C2_counterexample :
  let cfg := with_outdoor_sensor None (with_primary_threshold (-1) sample_config) in
  let hass := snapshot (Some (float_literal 20)) None all_ok in
  20 + _primary_threshold cfg < 20 /\
  _outdoor_sensor cfg = None /\
  effective_mode cfg hass 20 20 = HEAT.
Proof.
  repeat split; reflexivity.
Qed.

(** C2 (amended): for every evaluation where current > target +
    primaryThreshold and current is not below target - primaryThreshold
    (always so for a non-negative threshold): with an outdoor sensor
    configured the primary mode is OFF when its reading is unavailable,
    COOL when the reading is at least the hot threshold and OFF when it is
    below; with no outdoor sensor the primary mode is COOL. *)
Theorem C2_outdoor_veto (cfg : Config) (hass : Hass) (current target : Q) :
  let primary := effective_mode cfg hass current target in
  target + _primary_threshold cfg < current ->
  ~ current < target - _primary_threshold cfg ->
  (forall sensor,
     truthy (_outdoor_sensor cfg) = Some sensor ->
     (forall t, states hass sensor <> Some (float_literal t)) ->
     primary = OFF) /\
  (forall sensor t,
     truthy (_outdoor_sensor cfg) = Some sensor ->
     states hass sensor = Some (float_literal t) ->
     _outdoor_hot_threshold cfg <= t ->
     primary = COOL) /\
  (forall sensor t,
     truthy (_outdoor_sensor cfg) = Some sensor ->
     states hass sensor = Some (float_literal t) ->
     t < _outdoor_hot_threshold cfg ->
     primary = OFF) /\
  (truthy (_outdoor_sensor cfg) = None -> primary = COOL).
Proof.
  intros primary Hhot Hnothot. subst primary.
  destruct (effective_mode_cool cfg hass current target Hnothot Hhot) as [-> _].
  unfold cooling_mode, read_outdoor.
  repeat split.
  - intros sensor -> Hno.
    destruct (states hass sensor) as [[| | q |] |] eqn:E; try reflexivity.
    exfalso. apply (Hno q). reflexivity.
  - intros sensor t -> -> Hge. simpl.
    apply Qle_bool_iff in Hge. rewrite Hge. reflexivity.
  - intros sensor t -> -> Hlt. simpl.
    apply Qle_bool_false_iff in Hlt. rewrite Hlt. reflexivity.
  - intros ->. reflexivity.
Qed.

Lemma C2_outdoor_veto_witness :
  effective_mode sample_config
    (snapshot (Some (float_literal 25)) (Some (float_literal 30)) all_ok) 25 22 = COOL.
Proof.
  pose proof (C2_outdoor_veto sample_config
    (snapshot (Some (float_literal 25)) (Some (float_literal 30)) all_ok) 25 22) as H.
  simpl in H.
  destruct H as (_ & H & _).
  - reflexivity.
  - vm_compute. intros H. discriminate H.
  - apply (H "sensor.outdoor"%string 30); [reflexivity | reflexivity |].
    vm_compute. discriminate.
Defined.

(** ** Running the methods *)

(** Unfold the methods down to the world they compute. *)
Ltac unfold_methods :=
  cbv [handle _periodic_update async_set_temperature async_set_preset_mode
    _apply_temperature turn_off_devices commit_main commit_secondary
    _set_effective_secondary _set_effective_main_hvac_mode
    _set_effective_main_temperature async_call assign log_error
    log_errors get_self bind ret
    with_last_switch_time with_last_main_mode with_last_main_temp
    with_last_secondary_mode with_last_secondary_temp with_target_temperature
    with_current_temperature with_preset_mode] in *.

(** Decide the innermost test the computation is stuck on. *)
Ltac step :=
  match goal with
  | |- context [match ?x with _ => _ end] =>
      lazymatch x with
      | context [match _ with _ => _ end] => fail
      | _ => destruct x eqn:?
      end
  end.

Ltac execute := unfold_methods; repeat (step; cbn in * ).

Lemma issued_app {A} (m : M A) (w : World) (l : list service_call) :
  calls (snd (m w)) = calls w ++ l -> issued m w = l.
Proof.
  intros H. unfold issued. rewrite H. apply drop_app_length.
Qed.

Lemma apply_temperature_target (cfg : Config) (hass : Hass) (w : World) :
  _attr_target_temperature (self (snd (_apply_temperature cfg hass w))) =
  _attr_target_temperature (self w).
Proof.
  execute; reflexivity.
Qed.

(** ** Sensor loss *)

(** C4, as stated, fails: after a manual setpoint of 22 in a room at 18
    both devices heat; a tick on which the indoor sensor is unavailable
    sends nothing, and the primary device is left in HEAT. *)
Lemma C4_counterexample :
  let cfg := sample_config in
  let w := run cfg [(snapshot (Some (float_literal 18)) None all_ok,
                     SetTemperature (Some 22))]
               (start cfg (snapshot None None all_ok)) in
  let hass := snapshot (Some unavailable) None all_ok in
  states hass (_sensor cfg) = Some unavailable /\
  _last_main_mode (self w) = HEAT /\
  issued (_periodic_update cfg hass) w = [] /\
  _last_main_mode (self (snd (_periodic_update cfg hass w))) = HEAT.
Proof.
  repeat split; reflexivity.
Qed.

(** C4 (amended): whenever the current indoor temperature cannot be read
    (sensor absent, unavailable, or unparseable), the decision engine is
    not invoked and the cycle returns having issued no command at all and
    changed no attribute of the entity; it only logs one error. *)
Theorem C4_sensor_loss_skips_cycle (cfg : Config) (hass : Hass) (w : World) :
  sensor_unreadable cfg hass ->
  exists e,
    _apply_temperature cfg hass w =
      (Returned tt,
       {| self := self w; calls := calls w; errors := errors w ++ [e] |}) /\
    issued (_apply_temperature cfg hass) w = [].
Proof.
  intros Hun. unfold sensor_unreadable in Hun.
  unfold _apply_temperature, log_error, issued.
  destruct (states hass (_sensor cfg)) as [[| | q |] |] eqn:Hst;
    try (eexists; split; [reflexivity | cbn; apply drop_all]).
  exfalso. apply (Hun q). reflexivity.
Qed.

Lemma C4_sensor_loss_skips_cycle_witness :
  let cfg := sample_config in
  let hass := snapshot (Some unavailable) None all_ok in
  let w := start cfg hass in
  exists e,
    _apply_temperature cfg hass w =
      (Returned tt,
       {| self := self w; calls := calls w; errors := errors w ++ [e] |}) /\
    issued (_apply_temperature cfg hass) w = [].
Proof.
  apply (C4_sensor_loss_skips_cycle sample_config
           (snapshot (Some unavailable) None all_ok)).
  intros q. cbn. discriminate.
Defined.

(** ** Presets *)

Lemma set_preset_target (cfg : Config) (hass : Hass) (preset_mode : string)
    (w : World) :
  _attr_target_temperature (self (snd (async_set_preset_mode cfg hass preset_mode w))) =
  match _heating_presets cfg !! preset_mode, _cooling_presets cfg !! preset_mode with
  | None, None => _attr_target_temperature (self w)
  | _, _ =>
      match preset_target cfg preset_mode (fst (read_current_temp cfg hass)) with
      | Some t => t
      | None => _attr_target_temperature (self w)
      end
  end.
Proof.
  unfold async_set_preset_mode.
  destruct (read_current_temp cfg hass) as [current_temp errs]. cbn [fst].
  destruct (_heating_presets cfg !! preset_mode) as [h |] eqn:Hh;
    destruct (_cooling_presets cfg !! preset_mode) as [c |] eqn:Hc;
    try reflexivity;
    destruct (preset_target cfg preset_mode current_temp);
    cbv beta iota delta [bind assign log_errors ret];
    rewrite apply_temperature_target; reflexivity.
Qed.

(** C5: for a preset with a heating target [h] and a cooling target [c],
    selected while the indoor sensor reads [current], the target
    temperature becomes [h] when [current] is below the midpoint
    [(h + c) / 2] and [c] otherwise; on a tie it is [c]. *)
Theorem C5_preset_midpoint (cfg : Config) (hass : Hass) (preset_mode : string)
    (h c current : Q) (w : World) :
  _heating_presets cfg !! preset_mode = Some (Some h) ->
  _cooling_presets cfg !! preset_mode = Some (Some c) ->
  states hass (_sensor cfg) = Some (float_literal current) ->
  let midpoint := (h + c) / 2 in
  let target :=
    _attr_target_temperature
      (self (snd (async_set_preset_mode cfg hass preset_mode w))) in
  (current < midpoint -> target = Some h) /\
  (~ current < midpoint -> target = Some c) /\
  (current == midpoint -> target = Some c).
Proof.
  intros Hh Hc Hst midpoint target. subst target.
  rewrite set_preset_target.
  unfold read_current_temp, preset_target.
  rewrite Hh, Hc, Hst. cbn [fst].
  fold midpoint.
  destruct (Qlt_bool current midpoint) eqn:E; reflect_Q.
  - repeat split; intros; try reflexivity; exfalso; lra.
  - repeat split; intros; try reflexivity; exfalso; lra.
Qed.

Lemma C5_preset_midpoint_witness :
  let hass := snapshot (Some (float_literal 22)) None all_ok in
  _attr_target_temperature
    (self (snd (async_set_preset_mode sample_config hass "comfort"
                  (start sample_config hass)))) = Some 24.
Proof.
  pose proof (C5_preset_midpoint sample_config
                (snapshot (Some (float_literal 22)) None all_ok)
                "comfort" 20 24 22
                (start sample_config (snapshot (Some (float_literal 22)) None all_ok)))
    as H.
  destruct H as (_ & _ & H); [reflexivity | reflexivity | reflexivity |].
  apply H. reflexivity.
Defined.

(** C6, as stated, fails: "comfort" has a heating target 20 and a cooling
    target 24; selected while the indoor sensor is unavailable and the
    target is 18, it moves the target to 20. *)
Lemma C6_counterexample :
  let cfg := sample_config in
  let hass := snapshot (Some unavailable) None all_ok in
  let w := run cfg [(hass, SetTemperature (Some 18))] (start cfg hass) in
  _heating_presets cfg !! "comfort" = Some (Some 20) /\
  _cooling_presets cfg !! "comfort" = Some (Some 24) /\
  states hass (_sensor cfg) = Some unavailable /\
  _attr_target_temperature (self w) = Some 18 /\
  _attr_target_temperature
    (self (snd (async_set_preset_mode cfg hass "comfort" w))) = Some 20.
Proof.
  repeat split; vm_compute; reflexivity.
Qed.

(** C6 (amended): when a preset is selected while the current temperature
    is unknown, the target becomes the preset's entry in the heating table
    whenever the preset is a key of that table (so a preset with both a
    heating and a cooling target resolves to its heating target), and its
    entry in the cooling table otherwise. *)
Theorem C6_preset_without_temperature (cfg : Config) (hass : Hass)
    (preset_mode : string) (w : World) :
  sensor_unreadable cfg hass ->
  let target :=
    _attr_target_temperature
      (self (snd (async_set_preset_mode cfg hass preset_mode w))) in
  (forall heating_target,
     _heating_presets cfg !! preset_mode = Some heating_target ->
     target = heating_target) /\
  (forall cooling_target,
     _heating_presets cfg !! preset_mode = None ->
     _cooling_presets cfg !! preset_mode = Some cooling_target ->
     target = cooling_target).
Proof.
  intros Hun target. subst target.
  rewrite set_preset_target.
  assert (Hcur : fst (read_current_temp cfg hass) = None).
  { unfold read_current_temp.
    destruct (states hass (_sensor cfg)) as [[| | q |] |] eqn:Hst; try reflexivity.
    exfalso. apply (Hun q). assumption. }
  rewrite Hcur. unfold preset_target.
  split.
  - intros heating_target ->.
    destruct (_cooling_presets cfg !! preset_mode); reflexivity.
  - intros cooling_target -> ->. reflexivity.
Qed.

Lemma C6_preset_without_temperature_witness :
  let hass := snapshot (Some unavailable) None all_ok in
  _attr_target_temperature
    (self (snd (async_set_preset_mode sample_config hass "sleep"
                  (start sample_config hass)))) = Some 15.
Proof.
  pose proof (C6_preset_without_temperature sample_config
                (snapshot (Some unavailable) None all_ok) "sleep"
                (start sample_config (snapshot (Some unavailable) None all_ok)))
    as H.
  destruct H as (H & _).
  - intros q. cbn. discriminate.
  - apply H. reflexivity.
Defined.

(** ** No target temperature *)

Lemma tick_settled_off (cfg : Config) (hass : Hass) (w : World) :
  settled_off cfg w ->
  settled_off cfg (snd (_periodic_update cfg hass w)) /\
  calls (snd (_periodic_update cfg hass w)) = calls w.
Proof.
  intros (Htarget & Hmain & Hsec). unfold settled_off.
  destruct (_secondary_climate cfg) as [dev |] eqn:Hdev.
  - specialize (Hsec (ltac:(eexists; reflexivity))).
    execute; simplify_eq; auto.
  - execute; simplify_eq; repeat split; auto; intros [? ?]; discriminate.
Qed.

Lemma ticks_settled_off (cfg : Config) (snapshots : list Hass) (w : World) :
  settled_off cfg w ->
  calls (run cfg (ticks snapshots) w) = calls w.
Proof.
  revert w. induction snapshots as [| hass rest IH]; intros w Hw.
  - reflexivity.
  - cbn [ticks map run handle].
    destruct (tick_settled_off cfg hass w Hw) as [Hw' Hcalls].
    fold (ticks rest). rewrite (IH _ Hw'). exact Hcalls.
Qed.

(** C7, as stated, fails: both devices heat towards 22; "none" is selected
    while the indoor sensor is unavailable, so the target becomes absent;
    that cycle and the following tick, the sensor still unavailable, send
    nothing, and the last mode commanded to both devices stays HEAT. *)
Lemma C7_counterexample :
  let cfg := sample_config in
  let warm := snapshot (Some (float_literal 18)) None all_ok in
  let blind := snapshot (Some unavailable) None all_ok in
  let w := run cfg [(warm, SetTemperature (Some 22))] (start cfg warm) in
  let w' := run cfg [(blind, SetPreset "none"); (blind, Tick)] w in
  _attr_target_temperature (self w') = None /\
  calls w' = calls w /\
  _last_main_mode (self w') = HEAT /\
  _last_secondary_mode (self w') = HEAT.
Proof.
  repeat split; vm_compute; reflexivity.
Qed.

(** C7 (amended): whenever the target temperature is absent in a cycle that
    reads the indoor temperature and whose service calls go through, each
    configured device whose last commanded mode is not OFF is commanded
    OFF, once, and the last commanded modes become OFF; the following
    ticks, for as long as the target stays absent, issue no command at
    all. *)
Theorem C7_target_absent_off_once (cfg : Config) (hass : Hass) (w : World)
    (current : Q) :
  states hass (_sensor cfg) = Some (float_literal current) ->
  _attr_target_temperature (self w) = None ->
  calls_succeed hass ->
  let w' := snd (_apply_temperature cfg hass w) in
  fst (_apply_temperature cfg hass w) = Returned tt /\
  issued (_apply_temperature cfg hass) w = off_commands cfg (self w) /\
  _last_main_mode (self w') = OFF /\
  (is_Some (_secondary_climate cfg) -> _last_secondary_mode (self w') = OFF) /\
  _attr_target_temperature (self w') = None /\
  forall later : list Hass,
    calls (run cfg (ticks later) w') = calls w'.
Proof.
  intros Hst Htarget Hok w'.
  assert (Hrun :
    fst (_apply_temperature cfg hass w) = Returned tt /\
    calls w' = calls w ++ off_commands cfg (self w) /\
    settled_off cfg w').
  { subst w'. unfold settled_off, off_commands.
    unfold_methods. rewrite Hst, Htarget. cbn.
    destruct (decide (_last_main_mode (self w) <> OFF)) as [Hm | Hm]; cbn;
      rewrite ?Hok; cbn;
      (destruct (_secondary_climate cfg) as [dev |] eqn:Hdev; cbn;
       [ destruct (decide (_last_secondary_mode (self w) <> OFF)) as [Hs | Hs];
         cbn; rewrite ?Hok; cbn | ]);
      rewrite <- ?app_assoc, ?app_nil_r; cbn;
      repeat split; auto;
      try (apply mode_dne; assumption);
      try (intros _; apply mode_dne; assumption);
      try (intros [? ?]; discriminate). }
  destruct Hrun as (Hret & Hcalls & Hsettled).
  split; [exact Hret |].
  split; [apply issued_app; exact Hcalls |].
  destruct Hsettled as (Ht' & Hm' & Hs').
  repeat split; auto.
  intros later. apply ticks_settled_off.
  repeat split; auto.
Qed.

Lemma C7_target_absent_off_once_witness :
  let cfg := sample_config in
  let hass := snapshot (Some (float_literal 18)) None all_ok in
  let w := {| self := with_target_temperature None
                        (self (run cfg [(hass, SetTemperature (Some 22))]
                                 (start cfg hass)));
              calls := []; errors := [] |} in
  issued (_apply_temperature cfg hass) w =
    [set_hvac_mode "climate.main" OFF; set_hvac_mode "climate.aux" OFF] /\
  calls (run cfg (ticks [hass; hass]) (snd (_apply_temperature cfg hass w))) =
    calls (snd (_apply_temperature cfg hass w)).
Proof.
  pose proof (C7_target_absent_off_once sample_config
    (snapshot (Some (float_literal 18)) None all_ok)
    {| self := with_target_temperature None
                 (self (run sample_config
                          [(snapshot (Some (float_literal 18)) None all_ok,
                            SetTemperature (Some 22))]
                          (start sample_config
                             (snapshot (Some (float_literal 18)) None all_ok))));
       calls := []; errors := [] |} 18) as H.
  destruct H as (_ & Hissued & _ & _ & _ & Hlater).
  - reflexivity.
  - reflexivity.
  - intros c. reflexivity.
  - split.
    + exact Hissued.
    + apply (Hlater [snapshot (Some (float_literal 18)) None all_ok;
                     snapshot (Some (float_literal 18)) None all_ok]).
Defined.

(** ** Without a secondary device *)

(** Put a trace in the form [calls w ++ l] and check its calls one by one. *)
Ltac solve_trace :=
  first
    [ exists []; split; [symmetry; apply app_nil_r | constructor]
    | rewrite <- ?app_assoc; eexists; split;
      [reflexivity | repeat constructor] ].

Lemma handle_secondary_frame (cfg : Config) (hass : Hass) (ev : event)
    (w : World) (m : HVACMode) (t : option Q) :
  _secondary_climate cfg = None ->
  handle cfg hass ev (with_secondary_fields m t w) =
  (fst (handle cfg hass ev w),
   with_secondary_fields m t (snd (handle cfg hass ev w))).
Proof.
  intros Hnone. unfold with_secondary_fields.
  destruct ev; unfold_methods; rewrite ?Hnone; execute; reflexivity.
Qed.

Lemma handle_calls_main (cfg : Config) (hass : Hass) (ev : event) (w : World) :
  _secondary_climate cfg = None ->
  exists l,
    calls (snd (handle cfg hass ev w)) = calls w ++ l /\
    Forall (fun c => entity_id_of c = _main_climate cfg) l.
Proof.
  intros Hnone.
  destruct ev; unfold_methods; rewrite ?Hnone; execute; solve_trace.
Qed.

Lemma handle_secondary_fields (cfg : Config) (hass : Hass) (ev : event)
    (w : World) :
  _secondary_climate cfg = None ->
  _last_secondary_mode (self (snd (handle cfg hass ev w))) =
    _last_secondary_mode (self w) /\
  _last_secondary_temp (self (snd (handle cfg hass ev w))) =
    _last_secondary_temp (self w).
Proof.
  intros Hnone.
  destruct ev; unfold_methods; rewrite ?Hnone; execute; split; reflexivity.
Qed.

(** C8: if no secondary device is configured then, under every input
    sequence of ticks, preset changes and manual setpoints, the fields
    [_last_secondary_mode] and [_last_secondary_temp] are never read (the
    run does not depend on them) nor written (they keep their values), and
    every service call is addressed to the main device. *)
Theorem C8_no_secondary_device (cfg : Config) (inputs : list (Hass * event))
    (w : World) :
  _secondary_climate cfg = None ->
  (forall m t,
     run cfg inputs (with_secondary_fields m t w) =
     with_secondary_fields m t (run cfg inputs w)) /\
  _last_secondary_mode (self (run cfg inputs w)) = _last_secondary_mode (self w) /\
  _last_secondary_temp (self (run cfg inputs w)) = _last_secondary_temp (self w) /\
  exists l,
    calls (run cfg inputs w) = calls w ++ l /\
    Forall (fun c => entity_id_of c = _main_climate cfg) l.
Proof.
  intros Hnone. revert w.
  induction inputs as [| [hass ev] rest IH]; intros w.
  - cbn [run]. repeat split; try reflexivity.
    exists []. split; [symmetry; apply app_nil_r | constructor].
  - cbn [run].
    destruct (IH (snd (handle cfg hass ev w))) as (Hframe & Hmode & Htemp & l2 & Hl2 & Hall2).
    destruct (handle_secondary_fields cfg hass ev w Hnone) as [Hmode1 Htemp1].
    destruct (handle_calls_main cfg hass ev w Hnone) as (l1 & Hl1 & Hall1).
    split; [| split; [| split]].
    + intros m t. rewrite handle_secondary_frame by assumption.
      cbn [snd]. apply Hframe.
    + rewrite Hmode. exact Hmode1.
    + rewrite Htemp. exact Htemp1.
    + exists (l1 ++ l2). split.
      * rewrite Hl2, Hl1. symmetry. apply app_assoc.
      * apply Forall_app. split; assumption.
Qed.

Lemma C8_no_secondary_device_witness :
  let cfg := with_secondary_climate None sample_config in
  let hass := snapshot (Some (float_literal 18)) None all_ok in
  let w := start cfg hass in
  exists l,
    calls (run cfg [(hass, SetPreset "comfort"); (hass, Tick)] w) = calls w ++ l /\
    Forall (fun c => entity_id_of c = _main_climate cfg) l.
Proof.
  apply (C8_no_secondary_device (with_secondary_climate None sample_config)
           [(snapshot (Some (float_literal 18)) None all_ok, SetPreset "comfort");
            (snapshot (Some (float_literal 18)) None all_ok, Tick)]
           (start (with_secondary_climate None sample_config)
              (snapshot (Some (float_literal 18)) None all_ok))).
  reflexivity.
Defined.

(** ** The minimum runtime *)

Lemma handle_min_runtime (cfg : Config) (r : Z) (hass : Hass) (ev : event)
    (w : World) :
  handle (with_min_runtime r cfg) hass ev w = handle cfg hass ev w.
Proof.
  destruct ev; reflexivity.
Qed.

Lemma handle_with_switch_time (cfg : Config) (hass : Hass) (ev : event)
    (t : Z) (w : World) :
  fst (handle cfg hass ev (with_switch_time t w)) = fst (handle cfg hass ev w) /\
  without_switch_time (snd (handle cfg hass ev (with_switch_time t w))) =
  without_switch_time (snd (handle cfg hass ev w)).
Proof.
  unfold with_switch_time, without_switch_time.
  destruct ev; execute; split; reflexivity.
Qed.

Lemma with_without_switch_time (w : World) :
  w = with_switch_time (_last_switch_time (self w)) (without_switch_time w).
Proof.
  destruct w as [[] ? ?]. reflexivity.
Qed.

Lemma handle_switch_time (cfg : Config) (hass : Hass) (ev : event)
    (w1 w2 : World) :
  without_switch_time w1 = without_switch_time w2 ->
  fst (handle cfg hass ev w1) = fst (handle cfg hass ev w2) /\
  without_switch_time (snd (handle cfg hass ev w1)) =
  without_switch_time (snd (handle cfg hass ev w2)).
Proof.
  intros Hw.
  rewrite (with_without_switch_time w1), (with_without_switch_time w2), Hw.
  destruct (handle_with_switch_time cfg hass ev
              (_last_switch_time (self w1)) (without_switch_time w2)) as [-> ->].
  destruct (handle_with_switch_time cfg hass ev
              (_last_switch_time (self w2)) (without_switch_time w2)) as [-> ->].
  split; reflexivity.
Qed.

Lemma run_switch_time (cfg : Config) (r1 r2 : Z) (inputs : list (Hass * event))
    (w1 w2 : World) :
  without_switch_time w1 = without_switch_time w2 ->
  without_switch_time (run (with_min_runtime r1 cfg) inputs w1) =
  without_switch_time (run (with_min_runtime r2 cfg) inputs w2).
Proof.
  revert w1 w2.
  induction inputs as [| [hass ev] rest IH]; intros w1 w2 Hw.
  - exact Hw.
  - cbn [run]. apply IH.
    rewrite !handle_min_runtime.
    apply handle_switch_time. exact Hw.
Qed.

(** C9: the configured minimum runtime and the tracked last switch time
    never influence the commands: two controllers whose configurations
    differ only in [min_runtime_seconds] (hence in the initial last switch
    time), run over the same input sequence, attempt the same service calls
    in the same order (and log the same errors and hold the same attributes,
    the last switch time apart). *)
Theorem C9_min_runtime_is_inert (cfg : Config) (r1 r2 : Z) (hass0 : Hass)
    (inputs : list (Hass * event)) :
  let w1 := run (with_min_runtime r1 cfg) inputs
                (start (with_min_runtime r1 cfg) hass0) in
  let w2 := run (with_min_runtime r2 cfg) inputs
                (start (with_min_runtime r2 cfg) hass0) in
  calls w1 = calls w2 /\ without_switch_time w1 = without_switch_time w2.
Proof.
  intros w1 w2.
  assert (H : without_switch_time w1 = without_switch_time w2).
  { subst w1 w2. apply run_switch_time. reflexivity. }
  split; [| exact H].
  change (calls (without_switch_time w1) = calls (without_switch_time w2)).
  rewrite H. reflexivity.
Qed.

(** ** The cycle commits what it decided *)

Lemma cycle_commits_decision (cfg : Config) (hass : Hass) (w : World)
    (current target : Q) :
  states hass (_sensor cfg) = Some (float_literal current) ->
  _attr_target_temperature (self w) = Some target ->
  calls_succeed hass ->
  let w' := snd (_apply_temperature cfg hass w) in
  fst (_apply_temperature cfg hass w) = Returned tt /\
  _last_main_mode (self w') = effective_mode cfg hass current target /\
  (is_Some (_secondary_climate cfg) ->
   _last_secondary_mode (self w') =
     computed_secondary cfg hass current (Some target)).
Proof.
  intros Hst Htarget Hok.
  unfold computed_secondary, effective_mode, diff.
  unfold _apply_temperature. rewrite Hst.
  cbv beta iota delta [bind assign get_self]. cbn [self].
  change (_attr_target_temperature
            (with_current_temperature (Some current) (self w)))
    with (_attr_target_temperature (self w)).
  rewrite Htarget.
  destruct (decide_mode cfg hass current target) as [[mode d] errs].
  cbn [fst snd].
  unfold_methods.
  repeat (rewrite ?Hok; step; cbn in * );
    repeat split; try reflexivity;
    try (symmetry; apply mode_dne; assumption);
    try (intros [? ?]; discriminate);
    intros _;
    match goal with
    | H : negb _ || _ = false |- _ =>
        apply orb_false_iff in H; destruct H as [Hm _];
        apply negb_false_iff, bool_decide_eq_true in Hm
    end;
    symmetry; exact Hm.
Qed.

(** ** The commit step *)









(** ** A service call that raises *)

(** C10, as stated, fails: with a target of 22 and the room at 18, the
    tick's first command (HEAT to the main device) cannot be transmitted;
    the exception leaves [_periodic_update], and the error log is what it
    was before the tick. *)
Lemma C10_counterexample :
  let cfg := sample_config in
  let hass0 := snapshot (Some unavailable) None all_ok in
  let w := run cfg [(hass0, SetTemperature (Some 22))] (start cfg hass0) in
  let hass := snapshot (Some (float_literal 18)) None main_down in
  async_call_ok hass (set_hvac_mode "climate.main" HEAT) = false /\
  fst (_periodic_update cfg hass w) =
    Raised (ServiceCallError (set_hvac_mode "climate.main" HEAT)) /\
  errors (snd (_periodic_update cfg hass w)) = errors w.
Proof.
  repeat split; vm_compute; reflexivity.
Qed.

Lemma decide_mode_ext (cfg : Config) (hass hass' : Hass) (current target : Q) :
  (forall e, states hass' e = states hass e) ->
  decide_mode cfg hass' current target = decide_mode cfg hass current target.
Proof.
  intros Hst. unfold decide_mode, cooling_mode, read_outdoor.
  destruct (truthy (_outdoor_sensor cfg)); [rewrite Hst |]; reflexivity.
Qed.

(** Two facts met on the way contradict each other. *)
Ltac clash :=
  match goal with
  | H : temp_ne ?a ?a = true |- _ => rewrite temp_ne_refl in H; discriminate H
  | H1 : ?x = true, H2 : ?x = false |- _ => rewrite H1 in H2; discriminate H2
  | H : ?a <> ?a |- _ => exfalso; apply H; reflexivity
  | H : ?P, N : ~ ?P |- _ => exfalso; exact (N H)
  end.

Lemma cycle_errors (cfg : Config) (hass : Hass) (w : World) (current : Q) :
  states hass (_sensor cfg) = Some (float_literal current) ->
  errors (snd (_periodic_update cfg hass w)) =
  errors w ++ decision_errors cfg hass current (_attr_target_temperature (self w)).
Proof.
  intros Hst. unfold decision_errors.
  unfold _periodic_update, _apply_temperature. rewrite Hst.
  execute; simplify_eq; rewrite ?app_nil_r; try reflexivity;
    match goal with
    | H : decide_mode _ _ _ _ = _ |- _ => rewrite H
    end; reflexivity.
Qed.

Lemma failed_call_raises (cfg : Config) (hass : Hass) (w : World)
    (c : service_call) :
  In c (issued (_periodic_update cfg hass) w) ->
  async_call_ok hass c = false ->
  fst (_periodic_update cfg hass w) = Raised (ServiceCallError c).
Proof.
  unfold issued.
  execute;
    rewrite <- ?app_assoc, ?drop_app_length, ?drop_all;
    cbn [app In]; intros Hin Hfail;
    repeat (destruct Hin as [<- | Hin]; [first [reflexivity | clash] |]);
    contradiction.
Qed.

Lemma raised_not_advanced (cfg : Config) (hass : Hass) (w : World)
    (c : service_call) :
  fst (_periodic_update cfg hass w) = Raised (ServiceCallError c) ->
  (exists before, issued (_periodic_update cfg hass) w = before ++ [c]) /\
  not_advanced cfg (self w) (self (snd (_periodic_update cfg hass w))) c.
Proof.
  unfold issued.
  execute; intros Hr; try discriminate Hr; injection Hr as <-;
    rewrite <- ?app_assoc, ?drop_app_length;
    (split;
     [ eexists; cbn [app];
       first [ exact (eq_refl ([] ++ [_]))
             | exact (eq_refl ([_] ++ [_]))
             | exact (eq_refl ([_; _] ++ [_]))
             | exact (eq_refl ([_; _; _] ++ [_])) ]
     | unfold not_advanced; cbn;
       first [ left; split; reflexivity
             | right; split; [eassumption | split; reflexivity] ] ]).
Qed.

Lemma raised_retried (cfg : Config) (hass hass' : Hass) (w : World)
    (c : service_call) :
  fst (_periodic_update cfg hass w) = Raised (ServiceCallError c) ->
  (forall e, states hass' e = states hass e) ->
  (forall c', async_call_ok hass c' = true -> async_call_ok hass' c' = true) ->
  In c (issued (_periodic_update cfg hass') (snd (_periodic_update cfg hass w))).
Proof.
  intros Hr Hst Hok. revert Hr. unfold issued.
  unfold_methods.
  repeat (rewrite ?Hst, ?(decide_mode_ext cfg hass hass' _ _ Hst);
          try match goal with
              | H : decide_mode cfg hass _ _ = _ |- _ => rewrite H
              end;
          try match goal with
              | H : secondary_temp _ _ _ = _ |- _ => rewrite H
              end;
          step; cbn in *; simplify_eq;
          try match goal with
              | H1 : async_call_ok hass ?x = true,
                H2 : async_call_ok hass' ?x = false |- _ =>
                  rewrite (Hok _ H1) in H2; discriminate H2
              end;
          try clash).
  all: intros Hr; try discriminate Hr.
  all: injection Hr as <-.
  all: match goal with
       | |- context [drop (length ?X) _] =>
           rewrite <- ?(app_assoc X), ?drop_app_length
       end.
  all: cbn [app In]; auto.
Qed.

(** * Further properties *)

(** ** Two cycles in a row *)

Lemma secondary_unchanged (m : HVACMode) (t : option Q) :
  negb (bool_decide (m = m)) || temp_ne t t = false.
Proof.
  rewrite temp_ne_refl, bool_decide_eq_true_2 by reflexivity. reflexivity.
Qed.

(** Run a second cycle after a first one, on the same sensor states: reuse
    what the first cycle has decided and drop the impossible branches. *)
Ltac rerun hass hass' Hst :=
  unfold_methods;
  repeat (rewrite ?Hst, ?(decide_mode_ext _ hass hass' _ _ Hst);
          try match goal with
              | H : decide_mode _ hass _ _ = _ |- _ => rewrite H
              end;
          try match goal with
              | H : secondary_temp _ _ _ = _ |- _ => rewrite H
              end;
          step; cbn in *; simplify_eq;
          try match goal with
              | H : negb (bool_decide (?m = ?m)) || temp_ne ?t ?t = true |- _ =>
                  rewrite secondary_unchanged in H; discriminate H
              end;
          try clash).

(** X1: a cycle that returned normally leaves nothing to send: the next
    cycle, on the same sensor states, returns normally, issues no service
    call and changes no attribute of the entity but the last switch
    time. *)
Theorem second_cycle_is_silent (cfg : Config) (hass hass' : Hass) (w : World) :
  fst (_apply_temperature cfg hass w) = Returned tt ->
  (forall e, states hass' e = states hass e) ->
  let w' := snd (_apply_temperature cfg hass w) in
  fst (_apply_temperature cfg hass' w') = Returned tt /\
  issued (_apply_temperature cfg hass') w' = [] /\
  with_last_switch_time 0 (self (snd (_apply_temperature cfg hass' w'))) =
  with_last_switch_time 0 (self w').
Proof.
  intros Hr Hst w'. subst w'.
  destruct (_apply_temperature cfg hass' (snd (_apply_temperature cfg hass w)))
    as [r2 w2] eqn:E2.
  unfold issued. rewrite E2. cbn [fst snd].
  revert Hr E2.
  rerun hass hass' Hst.
  all: intros Hr E2; try discriminate Hr.
  all: injection E2 as <- <-.
  all: split; [reflexivity | split; [apply drop_all | reflexivity]].
Qed.

Lemma second_cycle_is_silent_witness :
  let hass := snapshot (Some (float_literal 18)) None all_ok in
  let w := start sample_config hass in
  let w' := snd (async_set_preset_mode sample_config hass "comfort" w) in
  issued (_apply_temperature sample_config hass)
         (snd (_apply_temperature sample_config hass w')) = [].
Proof.
  pose proof (second_cycle_is_silent sample_config
           (snapshot (Some (float_literal 18)) None all_ok)
           (snapshot (Some (float_literal 18)) None all_ok)
           (snd (async_set_preset_mode sample_config
                   (snapshot (Some (float_literal 18)) None all_ok) "comfort"
                   (start sample_config
                      (snapshot (Some (float_literal 18)) None all_ok))))) as H.
  destruct H as (_ & H & _).
  - reflexivity.
  - intros e. reflexivity.
  - exact H.
Defined.

(** ** What can go wrong *)

(** X2: the handlers raise only when a service call does: on a snapshot
    whose service calls go through, a tick, a manual setpoint and a preset
    selection all return normally, whatever the sensors say and whatever
    the preset is. *)
Theorem handlers_return (cfg : Config) (hass : Hass) (ev : event) (w : World) :
  calls_succeed hass ->
  fst (handle cfg hass ev w) = Returned tt.
Proof.
  intros Hok. unfold calls_succeed in Hok.
  destruct ev; unfold_methods;
    repeat (rewrite ?Hok; step; cbn in * ); reflexivity.
Qed.

Lemma handlers_return_witness :
  fst (handle sample_config (snapshot (Some other_text) None all_ok)
         (SetPreset "no such preset")
         (start sample_config (snapshot None None all_ok))) = Returned tt.
Proof.
  apply handlers_return. intros c. reflexivity.
Defined.

(** ** Presets *)

Lemma elem_of_preset_modes (cfg : Config) (preset_mode : string) :
  preset_mode ∈ preset_modes cfg <->
  is_Some (_heating_presets cfg !! preset_mode) \/
  is_Some (_cooling_presets cfg !! preset_mode).
Proof.
  unfold preset_modes.
  rewrite elem_of_elements, elem_of_dom, lookup_union_is_Some. tauto.
Qed.

(** X3: a preset that is not among [preset_modes] is refused: the call
    returns after logging one error, sends nothing and leaves every
    attribute (preset name and target included) as it was. *)
Theorem unknown_preset_is_refused (cfg : Config) (hass : Hass)
    (preset_mode : string) (w : World) :
  preset_mode ∉ preset_modes cfg ->
  async_set_preset_mode cfg hass preset_mode w =
  (Returned tt,
   {| self := self w;
      calls := calls w;
      errors := errors w ++ [PresetNotRecognized preset_mode] |}).
Proof.
  intros Hnot. rewrite elem_of_preset_modes in Hnot.
  unfold async_set_preset_mode.
  destruct (_heating_presets cfg !! preset_mode) as [h |] eqn:Hh.
  { exfalso. apply Hnot. left. eexists. reflexivity. }
  destruct (_cooling_presets cfg !! preset_mode) as [c |] eqn:Hc.
  { exfalso. apply Hnot. right. eexists. reflexivity. }
  reflexivity.
Qed.

Lemma unknown_preset_is_refused_witness :
  let hass := snapshot (Some (float_literal 18)) None all_ok in
  let w := start sample_config hass in
  async_set_preset_mode sample_config hass "party" w =
  (Returned tt,
   {| self := self w;
      calls := calls w;
      errors := errors w ++ [PresetNotRecognized "party"] |}).
Proof.
  apply (unknown_preset_is_refused sample_config
           (snapshot (Some (float_literal 18)) None all_ok) "party"
           (start sample_config (snapshot (Some (float_literal 18)) None all_ok))).
  rewrite elem_of_preset_modes. intros [[x Hx] | [x Hx]]; vm_compute in Hx; discriminate Hx.
Defined.

Lemma apply_temperature_preset (cfg : Config) (hass : Hass) (w : World) :
  _attr_preset_mode (self (snd (_apply_temperature cfg hass w))) =
  _attr_preset_mode (self w).
Proof.
  execute; reflexivity.
Qed.

(** X4: a preset among [preset_modes] is always taken up, even if a
    service call of the cycle that follows raises: the preset name is
    recorded, and the target temperature becomes the preset's entry in the
    heating table or its entry in the cooling table (an absent target if
    that entry is [None]); it is never left at its former value. *)
Theorem known_preset_sets_target (cfg : Config) (hass : Hass)
    (preset_mode : string) (w : World) :
  preset_mode ∈ preset_modes cfg ->
  let s' := self (snd (async_set_preset_mode cfg hass preset_mode w)) in
  _attr_preset_mode s' = preset_mode /\
  (_heating_presets cfg !! preset_mode = Some (_attr_target_temperature s') \/
   _cooling_presets cfg !! preset_mode = Some (_attr_target_temperature s')).
Proof.
  intros Hin s'. subst s'. rewrite elem_of_preset_modes in Hin.
  split.
  - unfold async_set_preset_mode.
    destruct (read_current_temp cfg hass) as [current_temp errs].
    destruct (_heating_presets cfg !! preset_mode) as [h |] eqn:Hh;
      destruct (_cooling_presets cfg !! preset_mode) as [c |] eqn:Hc;
      try (destruct Hin as [[x Hx] | [x Hx]]; discriminate Hx);
      destruct (preset_target cfg preset_mode current_temp);
      cbv beta iota delta [bind assign log_errors ret];
      rewrite apply_temperature_preset; reflexivity.
  - rewrite set_preset_target. unfold preset_target.
    destruct (fst (read_current_temp cfg hass)) as [current |];
      destruct (_heating_presets cfg !! preset_mode) as [[h |] |] eqn:Hh;
      destruct (_cooling_presets cfg !! preset_mode) as [[c |] |] eqn:Hc;
      try (destruct Hin as [[x Hx] | [x Hx]]; discriminate Hx);
      try (destruct (Qlt_bool current ((h + c) / 2)));
      auto.
Qed.

Lemma known_preset_sets_target_witness :
  let hass := snapshot (Some unavailable) None main_down in
  _attr_preset_mode
    (self (snd (async_set_preset_mode sample_config hass "boost"
                  (start sample_config hass)))) = "boost"%string.
Proof.
  pose proof (known_preset_sets_target sample_config
                (snapshot (Some unavailable) None main_down) "boost"
                (start sample_config (snapshot (Some unavailable) None main_down)))
    as H.
  destruct H as [H _].
  - rewrite elem_of_preset_modes. left. eexists. reflexivity.
  - exact H.
Defined.

(** ** Offsets *)

Lemma secondary_temp_Some (cfg : Config) (m : HVACMode) (target t : Q) :
  secondary_temp cfg m target = Some t -> t = target + _secondary_offset cfg.
Proof.
  unfold secondary_temp. destruct (decide (m <> OFF)); intros H; simplify_eq.
  reflexivity.
Qed.

(** X5: every setpoint command of a cycle carries the target temperature
    plus the offset of the device it is addressed to: the primary offset
    for the main device, the secondary offset for the secondary device. *)
Theorem setpoints_carry_offsets (cfg : Config) (hass : Hass) (w : World)
    (e : string) (t : Q) :
  In (set_temperature e t) (issued (_apply_temperature cfg hass) w) ->
  exists target,
    _attr_target_temperature (self w) = Some target /\
    ((e = _main_climate cfg /\ t = target + _primary_offset cfg) \/
     (_secondary_climate cfg = Some e /\ t = target + _secondary_offset cfg)).
Proof.
  unfold issued.
  execute;
    rewrite <- ?app_assoc, ?drop_app_length, ?drop_all;
    cbn [app In]; intros Hin;
    repeat (destruct Hin as [Hin | Hin]; [simplify_eq |]);
    try contradiction;
    repeat match goal with
    | H : secondary_temp _ _ _ = Some _ |- _ =>
        apply secondary_temp_Some in H; subst
    end;
    eexists; (split; [reflexivity |]);
    first [ left; split; reflexivity | right; split; reflexivity ].
Qed.

Lemma setpoints_carry_offsets_witness :
  let hass := snapshot (Some (float_literal 18)) None all_ok in
  let w := snd (assign (with_target_temperature (Some 22)) (start sample_config hass)) in
  exists target,
    _attr_target_temperature (self w) = Some target /\
    (("climate.main"%string = _main_climate sample_config /\
      23 = target + _primary_offset sample_config) \/
     (_secondary_climate sample_config = Some "climate.main"%string /\
      23 = target + _secondary_offset sample_config)).
Proof.
  apply (setpoints_carry_offsets sample_config
           (snapshot (Some (float_literal 18)) None all_ok)
           (snd (assign (with_target_temperature (Some 22))
                   (start sample_config
                      (snapshot (Some (float_literal 18)) None all_ok))))
           "climate.main" 23).
  vm_compute. right. left. reflexivity.
Defined.

(** ** The two devices together *)

(** Turn the tests met on the way into equations between modes. *)
Ltac mode_facts :=
  repeat match goal with
  | H : decide _ = _ |- _ => clear H
  end;
  repeat match goal with
  | H : ~ _ <> _ |- _ => apply mode_dne in H
  | H : negb (bool_decide _) || _ = false |- _ =>
      apply orb_false_iff in H; destruct H as [H _];
      apply negb_false_iff, bool_decide_eq_true in H
  | H : negb (bool_decide _) || _ = true |- _ => clear H
  | H : ?x = ?x -> _ |- _ => specialize (H eq_refl)
  end.

Lemma handle_devices_agree (cfg : Config) (hass : Hass) (ev : event) (w : World) :
  calls_succeed hass ->
  (_secondary_climate cfg = None -> _last_secondary_mode (self w) = OFF) ->
  devices_agree (self w) ->
  (_secondary_climate cfg = None ->
   _last_secondary_mode (self (snd (handle cfg hass ev w))) = OFF) /\
  devices_agree (self (snd (handle cfg hass ev w))).
Proof.
  intros Hok Hnone Hagree. unfold calls_succeed in Hok.
  unfold devices_agree in *.
  destruct ev; unfold_methods; unfold secondary_effective_mode;
    repeat (rewrite ?Hok; step; cbn in * );
    mode_facts;
    (split; [intros ?; first [discriminate | assumption | reflexivity | auto; fail] |]);
    first [ assumption
          | left; first [reflexivity | assumption | congruence]
          | right; first [reflexivity | assumption | congruence] ].
Qed.

(** X6: the devices never work against each other.  From construction on,
    over any input sequence whose service calls go through, the last mode
    commanded to the secondary device is OFF or the last mode commanded to
    the main device: never HEAT beside COOL, never active beside OFF. *)
Theorem devices_never_fight (cfg : Config) (hass0 : Hass)
    (inputs : list (Hass * event)) :
  inputs_succeed inputs ->
  devices_agree (self (run cfg inputs (start cfg hass0))).
Proof.
  intros Hok.
  assert (Hgen : forall w,
    (_secondary_climate cfg = None -> _last_secondary_mode (self w) = OFF) ->
    devices_agree (self w) ->
    devices_agree (self (run cfg inputs w))).
  { induction Hok as [| [hass ev] rest Hhass Hrest IH]; intros w Hnone Hagree.
    - exact Hagree.
    - cbn [run].
      destruct (handle_devices_agree cfg hass ev w Hhass Hnone Hagree)
        as [Hnone' Hagree'].
      apply IH; assumption. }
  apply Hgen.
  - intros _. reflexivity.
  - left. reflexivity.
Qed.

Lemma devices_never_fight_witness :
  let cool := snapshot (Some (float_literal 30)) (Some (float_literal 28)) all_ok in
  let warm := snapshot (Some (float_literal 15)) None all_ok in
  devices_agree
    (self (run sample_config [(cool, SetPreset "comfort"); (warm, Tick)]
             (start sample_config cool))).
Proof.
  apply devices_never_fight.
  repeat constructor.
Defined.

(** ** The bookkeeping and the devices *)

Lemma handle_mirrors (cfg : Config) (hass : Hass) (ev : event) (w : World) :
  calls_succeed hass ->
  (forall dev, _secondary_climate cfg = Some dev -> dev <> _main_climate cfg) ->
  mirrors cfg w ->
  mirrors cfg (snd (handle cfg hass ev w)).
Proof.
  intros Hok Hdistinct (Hmode & Htemp & Hsec). unfold calls_succeed in Hok.
  unfold mirrors, mode_after, setpoint_after in *.
  destruct ev; unfold_methods;
    repeat (rewrite ?Hok; step; cbn in * );
    (split; [| split; [| intros dev Hdev; simplify_eq]]);
    rewrite ?fold_left_app; cbn [fold_left];
    rewrite ?String.eqb_refl;
    try match goal with
        | H : forall dev, Some ?s = Some dev -> dev <> _ |- _ =>
            let Hne := fresh "Hne" in
            pose proof (H s eq_refl) as Hne;
            apply String.eqb_neq in Hne;
            rewrite ?Hne, ?(String.eqb_sym _ s), ?Hne
        end;
    first [ reflexivity | assumption | apply Hsec; reflexivity | auto ].
Qed.

(** X7: the bookkeeping mirrors the devices.  From construction on, over
    any input sequence whose service calls go through, and with a secondary
    device other than the main one, the last commanded mode of each device
    is the mode of the last mode command sent to it (OFF if there was
    none), and the last commanded setpoint of the main device is that of the
    last setpoint command sent to it. *)
Theorem bookkeeping_mirrors_devices (cfg : Config) (hass0 : Hass)
    (inputs : list (Hass * event)) :
  inputs_succeed inputs ->
  (forall dev, _secondary_climate cfg = Some dev -> dev <> _main_climate cfg) ->
  mirrors cfg (run cfg inputs (start cfg hass0)).
Proof.
  intros Hok Hdistinct.
  assert (Hgen : forall w, mirrors cfg w -> mirrors cfg (run cfg inputs w)).
  { induction Hok as [| [hass ev] rest Hhass Hrest IH]; intros w Hw.
    - exact Hw.
    - cbn [run]. apply IH. apply handle_mirrors; assumption. }
  apply Hgen. repeat split.
Qed.

Lemma bookkeeping_mirrors_devices_witness :
  let cold := snapshot (Some (float_literal 15)) None all_ok in
  let mild := snapshot (Some (float_literal 20)) None all_ok in
  mirrors sample_config
    (run sample_config [(cold, SetPreset "comfort"); (mild, Tick)]
       (start sample_config cold)).
Proof.
  apply bookkeeping_mirrors_devices.
  - repeat constructor.
  - intros dev Hdev. injection Hdev as <-. discriminate.
Defined.

(** ** When a device is switched on *)

(** X8: an active mode is always called for.  HEAT is decided only when the
    room is below [target - primary threshold], COOL only when it is above
    [target + primary threshold] and cooling is not vetoed, and the error
    [diff] is then the distance to the target; the secondary device is
    active only in the mode of the main device and only when that error
    exceeds the secondary threshold. *)
Theorem active_modes_are_called_for (cfg : Config) (hass : Hass)
    (current target : Q) :
  let mode := effective_mode cfg hass current target in
  let d := diff cfg hass current target in
  let secondary := secondary_effective_mode cfg mode d in
  (mode = HEAT ->
   current < target - _primary_threshold cfg /\ d = target - current) /\
  (mode = COOL ->
   target + _primary_threshold cfg < current /\
   ~ cooling_vetoed cfg hass /\ d = current - target) /\
  (secondary <> OFF ->
   secondary = mode /\ mode <> OFF /\ _secondary_threshold cfg < d).
Proof.
  intros mode d secondary. subst mode d secondary.
  assert (Hsec : forall m x,
    secondary_effective_mode cfg m x <> OFF ->
    secondary_effective_mode cfg m x = m /\ m <> OFF /\
    _secondary_threshold cfg < x).
  { intros m x. unfold secondary_effective_mode.
    destruct (Qlt_bool (_secondary_threshold cfg) x) eqn:E; intros H.
    - apply Qlt_bool_iff in E. auto.
    - contradiction. }
  split; [| split]; [| | apply Hsec].
  - destruct (Qlt_le_dec current (target - _primary_threshold cfg)) as [Hheat | Hno].
    + destruct (effective_mode_heat cfg hass current target Hheat) as [_ ->]. auto.
    + destruct (Qlt_le_dec (target + _primary_threshold cfg) current) as [Hcool | Hband].
      * destruct (effective_mode_cool cfg hass current target) as [-> _];
          [lra | assumption |].
        destruct (cooling_mode_cases cfg hass) as [[-> _] | [-> _]]; discriminate.
      * destruct (effective_mode_band cfg hass current target Hno Hband) as [-> _].
        discriminate.
  - destruct (Qlt_le_dec current (target - _primary_threshold cfg)) as [Hheat | Hno].
    + destruct (effective_mode_heat cfg hass current target Hheat) as [-> _].
      discriminate.
    + destruct (Qlt_le_dec (target + _primary_threshold cfg) current) as [Hcool | Hband].
      * destruct (effective_mode_cool cfg hass current target) as [-> ->];
          [lra | assumption |].
        destruct (cooling_mode_cases cfg hass) as [[-> Hv] | [-> _]];
          [auto | discriminate].
      * destruct (effective_mode_band cfg hass current target Hno Hband) as [-> _].
        discriminate.
Qed.

(** X9: the last switch time is the time of the last cycle that ran to its
    end with an active mode: such a cycle stamps the clock even when it
    sends nothing, and no other cycle (indoor sensor unreadable, no
    target, mode OFF, or a service call that raises) touches it. *)
Theorem switch_time_is_last_active_cycle (cfg : Config) (hass : Hass) (w : World) :
  let w' := snd (_apply_temperature cfg hass w) in
  (forall current target,
     states hass (_sensor cfg) = Some (float_literal current) ->
     _attr_target_temperature (self w) = Some target ->
     effective_mode cfg hass current target <> OFF ->
     fst (_apply_temperature cfg hass w) = Returned tt ->
     _last_switch_time (self w') = now hass) /\
  (_last_switch_time (self w') <> _last_switch_time (self w) ->
   fst (_apply_temperature cfg hass w) = Returned tt /\
   exists current target,
     states hass (_sensor cfg) = Some (float_literal current) /\
     _attr_target_temperature (self w) = Some target /\
     effective_mode cfg hass current target <> OFF /\
     _last_switch_time (self w') = now hass).
Proof.
  intros w'. subst w'. unfold effective_mode. split.
  - intros current target Hst Htarget.
    execute; simplify_eq;
      repeat match goal with
      | H : decide_mode _ _ _ _ = _ |- _ => rewrite H in *; clear H
      end;
      cbn [fst]; intros Hactive Hr;
      first [ reflexivity | discriminate Hr | contradiction ].
  - execute; intros Hchanged;
      try (exfalso; apply Hchanged; reflexivity);
      (split; [reflexivity |]);
      do 2 eexists; (split; [reflexivity |]); (split; [reflexivity |]);
      match goal with
      | H : decide_mode _ _ _ _ = _ |- _ => rewrite H
      end;
      cbn [fst]; (split; [assumption | reflexivity]).
Qed.

(** ** Reading the indoor sensor outside a cycle *)

Lemma apply_temperature_current (cfg : Config) (hass : Hass) (w : World) (q : Q) :
  states hass (_sensor cfg) = Some (float_literal q) ->
  _attr_current_temperature (self (snd (_apply_temperature cfg hass w))) = Some q.
Proof.
  intros Hst. unfold _apply_temperature. rewrite Hst.
  execute; reflexivity.
Qed.

(** X10: [async_update] and the cycle read the indoor sensor alike: after
    either, the current temperature is the sensor's reading when it is a
    number and the former (stale) value when it is not.  [async_update]
    changes no other attribute, and it logs exactly when it keeps the
    stale value. *)
Theorem async_update_reads_like_the_cycle (cfg : Config) (hass : Hass) (w : World) :
  let '(s', logged) := async_update cfg hass (self w) in
  _attr_current_temperature s' =
    _attr_current_temperature (self (snd (_apply_temperature cfg hass w))) /\
  with_current_temperature None s' = with_current_temperature None (self w) /\
  (logged = [] <->
   exists q, states hass (_sensor cfg) = Some (float_literal q)) /\
  (logged <> [] -> s' = self w).
Proof.
  unfold async_update.
  destruct (states hass (_sensor cfg)) as [[| | q |] |] eqn:Hst;
    (split; [unfold _apply_temperature; rewrite Hst; try reflexivity |]);
    try (split; [reflexivity |]; split;
         [ split; [discriminate | intros [q' Hq']; discriminate Hq']
         | reflexivity ]).
  - (* a number: the cycle records it before anything else *)
    generalize (apply_temperature_current cfg hass w q Hst).
    unfold _apply_temperature. rewrite Hst. intros ->. reflexivity.
  - split; [reflexivity |]. split.
    + split; [intros _; exists q; reflexivity | reflexivity].
    + intros H. contradiction.
Qed.

(** ** Restart *)

(** X11: what [extra_state_attributes] publishes is what
    [async_added_to_hass] restores: restoring from the attributes of an
    entity gives back its preset name and its target temperature (absent
    included), and leaves every other attribute of the restoring entity
    (the last commanded modes and setpoints among them) as constructed. *)
Theorem restore_round_trip (saved s : Entity) :
  restore_state (Some (extra_state_attributes saved)) s =
  Some (with_target_temperature (_attr_target_temperature saved)
          (with_preset_mode (_attr_preset_mode saved) s)).
Proof.
  unfold restore_state, extra_state_attributes.
  rewrite lookup_insert_ne by discriminate.
  rewrite !lookup_insert_eq.
  destruct (_attr_target_temperature saved); reflexivity.
Qed.

(** X12: a restore never sends a command and never touches the
    bookkeeping: whatever the stored state, the restored entity has the
    last commanded modes and setpoints, the current temperature and the
    last switch time it had; without a stored state it is unchanged, and a
    stored state without the two attributes gives the preset "eco" and
    keeps the target. *)
Theorem restore_keeps_bookkeeping
    (last_state : option (gmap string attr_value)) (s s' : Entity) :
  restore_state last_state s = Some s' ->
  with_target_temperature None (with_preset_mode "" s') =
  with_target_temperature None (with_preset_mode "" s) /\
  (last_state = None -> s' = s) /\
  (forall attributes,
     last_state = Some attributes ->
     attributes !! "preset_mode" = None ->
     attributes !! "target_temperature" = None ->
     s' = with_preset_mode "eco" s).
Proof.
  unfold restore_state.
  destruct last_state as [attributes |].
  - destruct (attributes !! "preset_mode") as [[| q0 | p] |] eqn:Hp;
      destruct (attributes !! "target_temperature") as [[| q | p'] |] eqn:Ht;
      intros H; simplify_eq;
      (split; [reflexivity |]); (split; [discriminate |]);
      intros a Ha Hp' Ht'; simplify_eq.
    destruct s; reflexivity.
  - intros H. simplify_eq. repeat split; try reflexivity.
    intros a Ha. discriminate Ha.
Qed.

Lemma restore_keeps_bookkeeping_witness :
  let hass := snapshot (Some (float_literal 18)) None all_ok in
  let s := __init__ sample_config hass in
  with_target_temperature None (with_preset_mode "" (with_preset_mode "eco" s)) =
  with_target_temperature None (with_preset_mode "" s).
Proof.
  pose proof (restore_keeps_bookkeeping (Some ∅)
                (__init__ sample_config (snapshot (Some (float_literal 18)) None all_ok))
                (with_preset_mode "eco"
                   (__init__ sample_config
                      (snapshot (Some (float_literal 18)) None all_ok)))) as H.
  destruct H as [H _].
  - reflexivity.
  - exact H.
Defined.

(** ** The periodic timer *)

Lemma unsubscribe_fresh (registration : nat) (l : list (nat * Z)) :
  Forall (fun r => (fst r < registration)%nat) l ->
  filter (fun r => fst r <> registration) l = l.
Proof.
  induction 1 as [| r l Hr Hl IH].
  - reflexivity.
  - rewrite filter_cons_True by lia. rewrite IH. reflexivity.
Qed.

(** X13: adding the entity registers one timer, of 60 seconds, and removing
    it cancels exactly that timer and forgets it: the host's timers are
    those from before the entity was added, and a second removal does
    nothing. *)
Theorem removal_cancels_the_timer
    (last_state : option (gmap string attr_value))
    (i i1 : Installed) (t t1 : Timers) :
  Forall (fun r => (fst r < next_registration t)%nat) (live t) ->
  async_added_to_hass last_state i t = Some (i1, t1) ->
  let '(i2, t2) := async_will_remove_from_hass i1 t1 in
  live t1 = live t ++ [(next_registration t, 60%Z)] /\
  live t2 = live t /\
  _update_unsub i2 = None /\
  entity i2 = entity i1 /\
  async_will_remove_from_hass i2 t2 = (i2, t2).
Proof.
  intros Hfresh. unfold async_added_to_hass.
  destruct (restore_state last_state (entity i)) as [s |]; [| discriminate].
  cbn. intros H. simplify_eq. cbn.
  repeat split.
  rewrite filter_app, (unsubscribe_fresh _ _ Hfresh).
  rewrite filter_cons_False by (cbn; intros H; apply H; reflexivity).
  rewrite filter_nil. apply app_nil_r.
Qed.

Lemma removal_cancels_the_timer_witness :
  let hass := snapshot (Some (float_literal 18)) None all_ok in
  let i := {| entity := __init__ sample_config hass; _update_unsub := None |} in
  let t := {| live := [(0%nat, 30%Z)]; next_registration := 1 |} in
  match async_added_to_hass None i t with
  | Some (i1, t1) => live (snd (async_will_remove_from_hass i1 t1)) = live t
  | None => False
  end.
Proof.
  pose proof (removal_cancels_the_timer None
    {| entity := __init__ sample_config (snapshot (Some (float_literal 18)) None all_ok);
       _update_unsub := None |}
    {| entity := __init__ sample_config (snapshot (Some (float_literal 18)) None all_ok);
       _update_unsub := Some 1%nat |}
    {| live := [(0%nat, 30%Z)]; next_registration := 1 |}
    {| live := [(0%nat, 30%Z); (1%nat, 60%Z)]; next_registration := 2 |}) as H.
  cbn in *. apply H.
  - repeat constructor.
  - reflexivity.
Defined.

(** ** Configuration that does nothing *)

Lemma handle_outdoor_cold_threshold (cfg : Config) (x : Q) (hass : Hass)
    (ev : event) (w : World) :
  handle (with_outdoor_cold_threshold x cfg) hass ev w = handle cfg hass ev w.
Proof.
  destruct ev; reflexivity.
Qed.

(** X14: heating is never vetoed.  The outdoor cold threshold is never
    consulted: changing it changes nothing over any input sequence; and a
    room below [target - primary threshold] is heated whatever the outdoor
    sensor reads. *)
Theorem heating_is_never_vetoed (cfg : Config) :
  (forall x inputs w,
     run (with_outdoor_cold_threshold x cfg) inputs w = run cfg inputs w) /\
  (forall hass current target,
     current < target - _primary_threshold cfg ->
     effective_mode cfg hass current target = HEAT).
Proof.
  split.
  - intros x inputs. induction inputs as [| [hass ev] rest IH]; intros w.
    + reflexivity.
    + cbn [run]. rewrite handle_outdoor_cold_threshold. apply IH.
  - intros hass current target H.
    apply (effective_mode_heat cfg hass current target H).
Qed.

(** ** Whom the controller commands *)

(** X15: the controller commands its own two devices and nothing else:
    whatever the event, every service call it attempts is addressed to the
    main device or to the configured secondary device. *)
Theorem only_own_devices_are_commanded (cfg : Config) (hass : Hass)
    (ev : event) (w : World) :
  Forall (fun c => entity_id_of c = _main_climate cfg \/
                   _secondary_climate cfg = Some (entity_id_of c))
         (issued (handle cfg hass ev) w).
Proof.
  unfold issued.
  destruct ev; execute;
    rewrite <- ?app_assoc, ?drop_app_length, ?drop_all; cbn [app];
    repeat first [ apply Forall_nil_2 | apply Forall_cons_2 ];
    cbn [entity_id_of];
    first [ left; reflexivity | right; reflexivity ].
Qed.

(** ** A setpoint remembered for a device that is OFF *)

(** X16: the no-target path switches the secondary device OFF without
    forgetting its last setpoint; the next cycle with a target that decides
    OFF for the secondary device then finds the setpoint changed (to none)
    and sends OFF once more, even though OFF was the last mode commanded,
    and forgets the setpoint. *)
Theorem remembered_setpoint_resends_off (cfg : Config) (hass : Hass) (w : World)
    (dev : string) (current target : Q) :
  calls_succeed hass ->
  _secondary_climate cfg = Some dev ->
  states hass (_sensor cfg) = Some (float_literal current) ->
  _attr_target_temperature (self w) = Some target ->
  computed_secondary cfg hass current (Some target) = OFF ->
  _last_secondary_temp (self w) <> None ->
  let w' := snd (_apply_temperature cfg hass w) in
  In (set_hvac_mode dev OFF) (issued (_apply_temperature cfg hass) w) /\
  _last_secondary_mode (self w') = OFF /\
  _last_secondary_temp (self w') = None.
Proof.
  intros Hok Hdev Hst Htarget Hoff Hsetpoint w'. subst w'.
  unfold calls_succeed in Hok.
  unfold computed_secondary, effective_mode, diff in Hoff.
  unfold issued.
  unfold _apply_temperature. rewrite Hst.
  cbv beta iota delta [bind assign get_self]. cbn [self].
  change (_attr_target_temperature
            (with_current_temperature (Some current) (self w)))
    with (_attr_target_temperature (self w)).
  rewrite Htarget.
  destruct (decide_mode cfg hass current target) as [[mode d] errs].
  cbn [fst snd] in Hoff.
  unfold_methods. rewrite Hdev.
  unfold secondary_temp. rewrite Hoff.
  destruct (_last_secondary_temp (self w)) as [x |] eqn:Hlast; [| contradiction].
  repeat (rewrite ?Hok, ?Hlast; step; cbn in *;
          try clash;
          try match goal with
              | H : _ || temp_ne None (Some _) = false |- _ =>
                  cbv [temp_ne] in H; rewrite orb_true_r in H; discriminate H
              end);
    match goal with
    | |- context [drop (length ?X) _] =>
        rewrite <- ?(app_assoc X), ?drop_app_length
    end;
    (split; [cbn [app In]; auto 6 |]); split; reflexivity.
Qed.

Lemma remembered_setpoint_resends_off_witness :
  let cold := snapshot (Some (float_literal 18)) None all_ok in
  let w := run sample_config
             [(cold, SetTemperature (Some 22)); (cold, SetPreset "none")]
             (start sample_config cold) in
  _last_secondary_mode (self w) = OFF /\
  In (set_hvac_mode "climate.aux" OFF)
     (issued (_apply_temperature sample_config cold)
        (snd (assign (with_target_temperature (Some 18)) w))).
Proof.
  split; [reflexivity |].
  pose proof (remembered_setpoint_resends_off sample_config
    (snapshot (Some (float_literal 18)) None all_ok)
    (snd (assign (with_target_temperature (Some 18))
            (run sample_config
               [(snapshot (Some (float_literal 18)) None all_ok, SetTemperature (Some 22));
                (snapshot (Some (float_literal 18)) None all_ok, SetPreset "none")]
               (start sample_config (snapshot (Some (float_literal 18)) None all_ok)))))
    "climate.aux" 18 18) as H.
  destruct H as [H _].
  - intros c. reflexivity.
  - reflexivity.
  - reflexivity.
  - reflexivity.
  - reflexivity.
  - discriminate.
  - exact H.
Defined.

(** ** A service call that fails *)

(** Every call of a cycle that returned is held by the bookkeeping. *)
Lemma returned_cycle_advanced (cfg : Config) (hass : Hass) (w : World) :
  fst (_periodic_update cfg hass w) = Returned tt ->
  Forall (advanced cfg (self (snd (_periodic_update cfg hass w))))
         (issued (_periodic_update cfg hass) w).
Proof.
  unfold issued.
  execute; intros Hr; try discriminate Hr;
    rewrite <- ?app_assoc, ?drop_app_length, ?drop_all; cbn [app];
    repeat first [ apply Forall_nil_2 | apply Forall_cons_2 ];
    unfold advanced; cbn;
    first [ left; split; reflexivity
          | right; split; [eassumption | reflexivity] ].
Qed.

Lemma returned_cycle_not_retried (cfg : Config) (hass hass' : Hass) (w : World) :
  fst (_periodic_update cfg hass w) = Returned tt ->
  (forall e, states hass' e = states hass e) ->
  issued (_periodic_update cfg hass') (snd (_periodic_update cfg hass w)) = [].
Proof.
  intros Hr Hst. revert Hr. unfold issued.
  rerun hass hass' Hst.
  all: intros Hr; try discriminate Hr.
  all: apply drop_all.
Qed.

(** C10 (amended): the controller never logs a command that fails (the
    error log of a cycle holds the outdoor sensor's errors and nothing
    else).  A command whose service call raises: the exception leaves the
    cycle ([_periodic_update] raises it), the rest of the cycle is
    abandoned, the last commanded mode and setpoint of the device addressed
    are not updated, and a next cycle over the same sensor readings, in
    which the calls that went through still do, issues the same command
    again.  A command whose service call returns, whether or not the
    device obeyed (the calls are not blocking): it is recorded as the last
    one commanded, and a next cycle over the same sensor readings issues
    nothing, so it is not retried. *)
Theorem C10_failure_handling (cfg : Config) (hass : Hass) (w : World) :
  let w' := snd (_periodic_update cfg hass w) in
  (forall current,
     states hass (_sensor cfg) = Some (float_literal current) ->
     errors w' =
     errors w ++ decision_errors cfg hass current (_attr_target_temperature (self w))) /\
  (forall c,
     In c (issued (_periodic_update cfg hass) w) ->
     async_call_ok hass c = false ->
     fst (_periodic_update cfg hass w) = Raised (ServiceCallError c) /\
     (exists before, issued (_periodic_update cfg hass) w = before ++ [c]) /\
     not_advanced cfg (self w) (self w') c /\
     forall hass',
       (forall e, states hass' e = states hass e) ->
       (forall c', async_call_ok hass c' = true -> async_call_ok hass' c' = true) ->
       In c (issued (_periodic_update cfg hass') w')) /\
  (fst (_periodic_update cfg hass w) = Returned tt ->
     Forall (advanced cfg (self w')) (issued (_periodic_update cfg hass) w) /\
     forall hass',
       (forall e, states hass' e = states hass e) ->
       issued (_periodic_update cfg hass') w' = []).
Proof.
  intros w'. split; [| split].
  - intros current Hst. apply cycle_errors. exact Hst.
  - intros c Hin Hfail.
    pose proof (failed_call_raises cfg hass w c Hin Hfail) as Hraised.
    destruct (raised_not_advanced cfg hass w c Hraised) as [Hlast Hkept].
    split; [exact Hraised |].
    split; [exact Hlast |].
    split; [exact Hkept |].
    intros hass' Hst Hok. apply raised_retried; assumption.
  - intros Hreturned. split.
    + apply returned_cycle_advanced. exact Hreturned.
    + intros hass' Hst. apply returned_cycle_not_retried; assumption.
Qed.

Lemma C10_failure_handling_witness :
  let cfg := sample_config in
  let hass0 := snapshot (Some unavailable) None all_ok in
  let w := run cfg [(hass0, SetTemperature (Some 22))] (start cfg hass0) in
  let down := snapshot (Some (float_literal 18)) None main_down in
  let up := snapshot (Some (float_literal 18)) None all_ok in
  In (set_hvac_mode "climate.main" HEAT)
     (issued (_periodic_update cfg up) (snd (_periodic_update cfg down w))) /\
  issued (_periodic_update cfg up) (snd (_periodic_update cfg up w)) = [].
Proof.
  split.
  - pose proof (C10_failure_handling sample_config
      (snapshot (Some (float_literal 18)) None main_down)
      (run sample_config
         [(snapshot (Some unavailable) None all_ok, SetTemperature (Some 22))]
         (start sample_config (snapshot (Some unavailable) None all_ok)))) as H.
    cbv zeta in H. destruct H as (_ & H & _).
    destruct (H (set_hvac_mode "climate.main" HEAT)) as (_ & _ & _ & Hretry).
    + vm_compute. left. reflexivity.
    + reflexivity.
    + apply (Hretry (snapshot (Some (float_literal 18)) None all_ok)).
      * intros e. reflexivity.
      * intros c' _. reflexivity.
  - pose proof (C10_failure_handling sample_config
      (snapshot (Some (float_literal 18)) None all_ok)
      (run sample_config
         [(snapshot (Some unavailable) None all_ok, SetTemperature (Some 22))]
         (start sample_config (snapshot (Some unavailable) None all_ok)))) as H.
    cbv zeta in H. destruct H as (_ & _ & H).
    destruct H as [_ Hsilent]; [reflexivity |].
    apply (Hsilent (snapshot (Some (float_literal 18)) None all_ok)).
    intros e. reflexivity.
Defined.
